(** * diffrax: [UnsafeBrownianPath] (diffrax/_brownian/path.py)

    A shallow embedding of the stateless Brownian-increment sampler and the
    properties of its constructor and of [evaluate].

    - [jnp]: the dtype lattice consulted by [jnp.issubdtype].
    - [ieee]: the IEEE 754 values of the Python scalars.
    - [jtu]: pytrees, with [tree_leaves], [tree_structure],
      [tree_unflatten] and the two-tree [tree_map].
    - [Backend]: the numeric collaborator (PRNG and array primitives of
      jax), as an interface with its laws.
    - [misc]: the helpers imported from diffrax/_misc.py.
    - [Path]: the class itself.
    - [Ref], [Demo]: an executable backend and sample inputs. *)

From Stdlib Require Import ZArith List String Bool Lia SpecFloat.
Import ListNotations.
Open Scope Z_scope.

Set Implicit Arguments.

(** ** Exceptions and the error monad *)

(** [ValueError] carries its message; [JaxError] stands for an exception
    raised inside a jax primitive, tagged with the primitive's name. *)
Inductive Exception : Type :=
| ValueError (msg : string)
| JaxError (origin : string).

Definition Result (A : Type) : Type := (Exception + A)%type.

Definition ret {A} (a : A) : Result A := inr a.
Definition raise {A} (e : Exception) : Result A := inl e.

Definition bind {A B} (m : Result A) (k : A -> Result B) : Result B :=
  match m with
  | inl e => inl e
  | inr a => k a
  end.

Notation "x <- m ;; k" := (bind m (fun x => k))
  (at level 61, m at next level, right associativity).

(** ** jax.numpy dtypes *)

Module jnp.

(** Concrete array element types. *)
Inductive dtype : Type :=
| bool_
| int8 | int16 | int32 | int64
| uint8 | uint16 | uint32 | uint64
| float16 | bfloat16 | float32 | float64
| complex64 | complex128.

(** The abstract scalar kinds of the numpy hierarchy. *)
Inductive kind : Type :=
| generic
| number
| integer
| signedinteger
| unsignedinteger
| inexact
| floating
| complexfloating.

Definition kind_eqb (a b : kind) : bool :=
  match a, b with
  | generic, generic | number, number | integer, integer
  | signedinteger, signedinteger | unsignedinteger, unsignedinteger
  | inexact, inexact | floating, floating
  | complexfloating, complexfloating => true
  | _, _ => false
  end.

(** The kind directly above a kind ([None] at the root). *)
Definition parent (k : kind) : option kind :=
  match k with
  | generic => None
  | number => Some generic
  | integer => Some number
  | inexact => Some number
  | signedinteger => Some integer
  | unsignedinteger => Some integer
  | floating => Some inexact
  | complexfloating => Some inexact
  end.

(** The kind directly above a concrete dtype. *)
Definition kind_of (d : dtype) : kind :=
  match d with
  | bool_ => generic
  | int8 | int16 | int32 | int64 => signedinteger
  | uint8 | uint16 | uint32 | uint64 => unsignedinteger
  | float16 | bfloat16 | float32 | float64 => floating
  | complex64 | complex128 => complexfloating
  end.

(** [below fuel k target]: [target] is reached from [k] by following
    [parent] at most [fuel] times. The hierarchy has depth 4. *)
Fixpoint below (fuel : nat) (k target : kind) : bool :=
  kind_eqb k target ||
  match fuel with
  | O => false
  | S fuel' =>
      match parent k with
      | None => false
      | Some p => below fuel' p target
      end
  end.

(** [jnp.issubdtype(d, k)] for a concrete dtype and an abstract kind. *)
Definition issubdtype (d : dtype) (k : kind) : bool :=
  below 4 (kind_of d) k.

(** Dtypes of 64-bit elements. *)
Definition is_64bit (d : dtype) : bool :=
  match d with
  | int64 | uint64 | float64 | complex128 => true
  | _ => false
  end.

(** [dtypes.canonicalize_dtype]: the dtype jax gives an array for a
    requested dtype. With [jax_enable_x64] off, a 64-bit dtype is
    truncated to its 32-bit counterpart. *)
Definition canonicalize_dtype (x64 : bool) (d : dtype) : dtype :=
  if x64 then d
  else match d with
       | int64 => int32
       | uint64 => uint32
       | float64 => float32
       | complex128 => complex64
       | _ => d
       end.

End jnp.

(** ** jax.ShapeDtypeStruct *)

Record ShapeDtypeStruct : Type := mkSDS {
  sds_shape : list nat;
  sds_dtype : jnp.dtype
}.

(** ** jax.tree_util *)

Module jtu.

(** What a pytree node records besides its children: the container type
    and, for a dict, its keys in the registry's (sorted) order. *)
Inductive NodeData : Type :=
| PyTuple
| PyList
| PyDict (keys : list string)
| PyNone.

Definition NodeData_eqb (x y : NodeData) : bool :=
  match x, y with
  | PyTuple, PyTuple | PyList, PyList | PyNone, PyNone => true
  | PyDict ks, PyDict ks' =>
      if list_eq_dec string_dec ks ks' then true else false
  | _, _ => false
  end.

Section Trees.

Local Unset Elimination Schemes.

(** A pytree: a leaf, or a container node over its children in
    flattening order. *)
Inductive PyTree (A : Type) : Type :=
| Leaf (a : A)
| Node (nd : NodeData) (children : list (PyTree A)).

End Trees.

Arguments Leaf {A} a.
Arguments Node {A} nd children.

(** Induction with the hypothesis on every child. *)
Section Induction.
Variable A : Type.
Variable P : PyTree A -> Prop.
Hypothesis P_leaf : forall a, P (Leaf a).
Hypothesis P_node : forall nd cs, Forall P cs -> P (Node nd cs).

Fixpoint PyTree_forall_ind (t : PyTree A) : P t :=
  match t with
  | Leaf a => P_leaf a
  | Node nd cs =>
      P_node nd
        ((fix all (l : list (PyTree A)) : Forall P l :=
            match l with
            | [] => Forall_nil P
            | c :: l' => Forall_cons c (PyTree_forall_ind c) (all l')
            end) cs)
  end.
End Induction.

(** [jtu.tree_leaves]: the leaves, left to right. *)
Fixpoint tree_leaves {A} (t : PyTree A) : list A :=
  match t with
  | Leaf a => [a]
  | Node _ cs => flat_map tree_leaves cs
  end.

(** [jtu.tree_structure]: the tree with its leaves erased. *)
Fixpoint tree_structure {A} (t : PyTree A) : PyTree unit :=
  match t with
  | Leaf _ => Leaf tt
  | Node nd cs => Node nd (map tree_structure cs)
  end.

(** [treedef.num_leaves]. *)
Definition num_leaves {A} (t : PyTree A) : nat :=
  List.length (tree_leaves t).

(** Refill a structure from a supply of leaves, returning what is left
    of the supply; [None] when the supply runs out. *)
Fixpoint refill {A} (td : PyTree unit) (xs : list A)
  : option (PyTree A * list A) :=
  match td with
  | Leaf _ =>
      match xs with
      | [] => None
      | x :: rest => Some (Leaf x, rest)
      end
  | Node nd cs =>
      match
        (fix refill_all (cs : list (PyTree unit)) (xs : list A)
           : option (list (PyTree A) * list A) :=
           match cs with
           | [] => Some ([], xs)
           | c :: cs' =>
               match refill c xs with
               | None => None
               | Some (t, rest) =>
                   match refill_all cs' rest with
                   | None => None
                   | Some (ts, rest') => Some (t :: ts, rest')
                   end
               end
           end) cs xs
      with
      | None => None
      | Some (ts, rest) => Some (Node nd ts, rest)
      end
  end.

(** The children loop of [refill], as a function of its own. *)
Fixpoint refill_all {A} (cs : list (PyTree unit)) (xs : list A)
  : option (list (PyTree A) * list A) :=
  match cs with
  | [] => Some ([], xs)
  | c :: cs' =>
      match refill c xs with
      | None => None
      | Some (t, rest) =>
          match refill_all cs' rest with
          | None => None
          | Some (ts, rest') => Some (t :: ts, rest')
          end
      end
  end.

(** [jtu.tree_unflatten(treedef, leaves)]: raises unless the number of
    leaves is exactly the treedef's. *)
Definition tree_unflatten {A} (td : PyTree unit) (xs : list A)
  : Result (PyTree A) :=
  match refill td xs with
  | Some (t, []) => ret t
  | _ => raise (JaxError "tree_unflatten")
  end.

(** [jtu.tree_map(f, tree, rest)] with one [rest] tree, for an [f] that
    may raise. The leaves of [tree] are visited left to right; [rest]
    must have a leaf wherever [tree] has one and a node of the same
    data and arity wherever [tree] has a node, otherwise the call
    raises. *)
Fixpoint tree_map {A B C} (f : A -> B -> Result C)
  (ta : PyTree A) (tb : PyTree B) : Result (PyTree C) :=
  match ta, tb with
  | Leaf a, Leaf b => c <- f a b ;; ret (Leaf c)
  | Node nd cs, Node nd' cs' =>
      if negb (NodeData_eqb nd nd') then raise (JaxError "tree_map") else
      ts <- (fix map_all (l : list (PyTree A)) (l' : list (PyTree B))
               : Result (list (PyTree C)) :=
               match l, l' with
               | [], [] => ret []
               | x :: r, y :: r' =>
                   t <- tree_map f x y ;;
                   ts <- map_all r r' ;;
                   ret (t :: ts)
               | _, _ => raise (JaxError "tree_map")
               end) cs cs' ;;
      ret (Node nd ts)
  | _, _ => raise (JaxError "tree_map")
  end.

(** The children loop of [tree_map], as a function of its own. *)
Fixpoint tree_map_all {A B C} (f : A -> B -> Result C)
  (l : list (PyTree A)) (l' : list (PyTree B)) : Result (list (PyTree C)) :=
  match l, l' with
  | [], [] => ret []
  | x :: r, y :: r' =>
      t <- tree_map f x y ;;
      ts <- tree_map_all f r r' ;;
      ret (t :: ts)
  | _, _ => raise (JaxError "tree_map")
  end.

End jtu.

Import jnp jtu.

(** ** Real scalars *)

(** [RealScalarLike], for Python scalars: an integer, or a float held by
    the 64-bit pattern of its binary64 representation (sign bit 63,
    exponent bits 62..52, fraction bits 51..0). *)
Inductive RealScalarLike : Type :=
| PyInt (n : Z)
| PyFloat (bits : Z).

(** ** IEEE 754 values of the scalars

    Floating-point values and their arithmetic are those of the
    standard library's [SpecFloat]; binary64 is [prec = 53],
    [emax = 1024] and binary32 is [prec = 24], [emax = 128]. NaN
    payloads are not tracked. *)

Module ieee.

Definition is_nan (x : spec_float) : bool :=
  match x with
  | S754_nan => true
  | _ => false
  end.

Definition is_zero (x : spec_float) : bool :=
  match x with
  | S754_zero _ => true
  | _ => false
  end.

(** Below zero: a negative finite number or minus infinity. *)
Definition negative (x : spec_float) : bool :=
  match x with
  | S754_infinity true | S754_finite true _ _ => true
  | _ => false
  end.

(** The value of a binary64 pattern. *)
Definition binary64_of_bits (b : Z) : spec_float :=
  let w := b mod 2 ^ 64 in
  let s := Z.testbit w 63 in
  let e := Z.land (Z.shiftr w 52) 2047 in
  let f := Z.land w (2 ^ 52 - 1) in
  if e =? 0 then
    if f =? 0 then S754_zero s else S754_finite s (Z.to_pos f) (-1074)
  else if e =? 2047 then
    if f =? 0 then S754_infinity s else S754_nan
  else S754_finite s (Z.to_pos (f + 2 ^ 52)) (e - 1075).

(** The pattern of a binary32 value (the quiet NaN for NaN). *)
Definition bits_of_binary32 (x : spec_float) : Z :=
  let sign (s : bool) := if s then 2 ^ 31 else 0 in
  match x with
  | S754_zero s => sign s
  | S754_infinity s => sign s + 255 * 2 ^ 23
  | S754_nan => 255 * 2 ^ 23 + 2 ^ 22
  | S754_finite s m e =>
      if Z.pos m <? 2 ^ 23 then sign s + Z.pos m
      else sign s + (e + 150) * 2 ^ 23 + (Z.pos m - 2 ^ 23)
  end.

(** Rounding a value to binary32, to nearest even. *)
Definition round32 (x : spec_float) : spec_float :=
  match x with
  | S754_finite s m e => binary_round 24 128 s m e
  | _ => x
  end.

(** [float(n)] for a Python integer. *)
Definition of_int (n : Z) : spec_float := binary_normalize 53 1024 n 0 false.

(** The value of a Python scalar. *)
Inductive PyValue : Type :=
| VInt (n : Z)
| VFloat (x : spec_float).

Definition value (t : RealScalarLike) : PyValue :=
  match t with
  | PyInt n => VInt n
  | PyFloat b => VFloat (binary64_of_bits b)
  end.

Definition as_float (v : PyValue) : spec_float :=
  match v with
  | VInt n => of_int n
  | VFloat x => x
  end.

(** Python's [a - b]: exact on two integers, otherwise in binary64
    after converting an integer operand. *)
Definition sub (a b : PyValue) : PyValue :=
  match a, b with
  | VInt m, VInt n => VInt (m - n)
  | _, _ => VFloat (SFsub 53 1024 (as_float a) (as_float b))
  end.

(** A Python scalar as jax takes it in: in binary32, or in binary64
    when [jax_enable_x64] is on. *)
Definition to_backend (x64 : bool) (v : PyValue) : spec_float :=
  if x64 then as_float v else round32 (as_float v).

(** The square root jax computes of a Python scalar. *)
Definition sqrt (x64 : bool) (v : PyValue) : spec_float :=
  if x64 then SFsqrt 53 1024 (to_backend true v)
  else SFsqrt 24 128 (to_backend false v).

End ieee.

(** The 32-bit word that stores a scalar in the backend's 32-bit
    representation: the binary32 pattern of a float, rounded from
    binary64, and the two's-complement word of an integer. *)
Definition bit_pattern (t : RealScalarLike) : Z :=
  match t with
  | PyInt n => n mod 2 ^ 32
  | PyFloat b =>
      ieee.bits_of_binary32 (ieee.round32 (ieee.binary64_of_bits b))
        mod 2 ^ 32
  end.

(** Fields of a binary32 pattern. *)
Definition f32_sign (b : Z) : bool := Z.testbit b 31.
Definition f32_exponent (b : Z) : Z := Z.land (Z.shiftr b 23) 255.
Definition f32_fraction (b : Z) : Z := Z.land b (2 ^ 23 - 1).

Definition f32_is_nan (b : Z) : bool :=
  (f32_exponent b =? 255) && negb (f32_fraction b =? 0).

Definition f32_is_zero (b : Z) : bool :=
  (f32_exponent b =? 0) && (f32_fraction b =? 0).

(** IEEE 754 equality ([==]) of two binary32 patterns: a NaN equals
    nothing, the two zeros equal each other, and otherwise the patterns
    must coincide. *)
Definition f32_eqb (a b : Z) : bool :=
  negb (f32_is_nan a) && negb (f32_is_nan b) &&
  ((f32_is_zero a && f32_is_zero b) || (a mod 2 ^ 32 =? b mod 2 ^ 32)).

(** ** The numeric backend *)

Module jax.

(** [t1 - t0] on real scalars: Python's subtraction. *)
Definition sub (t1 t0 : RealScalarLike) : ieee.PyValue :=
  ieee.sub (ieee.value t1) (ieee.value t0).

(** The primitives of jax that path.py calls. Arrays, keys and the
    arithmetic on them belong to the backend; the model only observes
    an array's shape, its dtype and whether all its elements are NaN. *)
Class Backend : Type := {
  PRNGKey : Type;
  Array : Type;
  (** [jax.config.jax_enable_x64] *)
  enable_x64 : bool;
  (** [a.shape], [a.dtype], [jnp.isnan(a).all()] *)
  arr_shape : Array -> list nat;
  arr_dtype : Array -> dtype;
  isnan_all : Array -> bool;
  (** [jrandom.fold_in(key, data)] with [data] a 32-bit integer *)
  fold_in : PRNGKey -> Z -> PRNGKey;
  (** [jrandom.split(key, num)] *)
  split : PRNGKey -> nat -> list PRNGKey;
  (** [jrandom.normal(key, shape, dtype)] *)
  normal : PRNGKey -> list nat -> dtype -> Result Array;
  (** [jnp.sqrt(x)] of a scalar: a 0-dimensional array *)
  sqrt : ieee.PyValue -> Array;
  (** [a.astype(dtype)] *)
  astype : Array -> dtype -> Array;
  (** [a * b] with broadcasting *)
  mul : Array -> Array -> Array
}.

(** What the proofs rely on from the backend. *)
Class BackendLaws (B : Backend) : Prop := {
  (** [split] returns as many keys as asked. *)
  split_length : forall k n, List.length (split k n) = n;
  (** [normal] accepts every inexact dtype and returns an array of the
      requested shape, in the canonical dtype of the requested one. *)
  normal_inexact : forall k s d,
    issubdtype d inexact = true ->
    exists a, normal k s d = inr a /\ arr_shape a = s /\
              arr_dtype a = canonicalize_dtype enable_x64 d;
  sqrt_shape : forall x, arr_shape (sqrt x) = [];
  astype_shape : forall a d, arr_shape (astype a d) = arr_shape a;
  astype_dtype : forall a d,
    arr_dtype (astype a d) = canonicalize_dtype enable_x64 d;
  (** Broadcasting against a 0-dimensional array keeps the shape, and
      equal dtypes promote to themselves. *)
  mul_scalar_shape : forall a c,
    arr_shape c = [] -> arr_shape (mul a c) = arr_shape a;
  mul_same_dtype : forall a c,
    arr_dtype c = arr_dtype a -> arr_dtype (mul a c) = arr_dtype a;
  (** Type promotion: under the square root, subtracting the integer
      [0] is subtracting [+0.0]. *)
  sqrt_sub_int_zero : forall t,
    sqrt (sub t (PyInt 0)) = sqrt (sub t (PyFloat 0))
}.

(** The backend computes as IEEE 754 prescribes: its square root of a
    scalar is NaN exactly when the IEEE square root of that scalar, as
    taken in by jax, is; casts between inexact dtypes keep NaN; a
    product with a NaN scalar is NaN everywhere. *)
Class IEEELaws (B : Backend) : Prop := {
  sqrt_isnan : forall v,
    isnan_all (sqrt v) = ieee.is_nan (ieee.sqrt enable_x64 v);
  astype_nan : forall a d,
    issubdtype d inexact = true ->
    isnan_all a = true -> isnan_all (astype a d) = true;
  mul_scalar_nan : forall a c,
    arr_shape c = [] -> isnan_all c = true -> isnan_all (mul a c) = true
}.

End jax.

(** ** diffrax/_misc.py and equinox.internal *)

Module misc.

(** The [shape] argument of the constructor: a tuple of integers, or a
    pytree of [jax.ShapeDtypeStruct]. *)
Inductive ShapeArg : Type :=
| TupleOfInts (dims : list nat)
| Descriptor (d : PyTree ShapeDtypeStruct).

(** Modelled from the spec: [is_tuple_of_ints] is defined in
    diffrax/_misc.py, outside the sources at hand. Spec 6: the
    descriptor is either a single pair of dimensions and dtype, given
    by its dimensions alone, or a nested descriptor. *)
Definition is_tuple_of_ints (s : ShapeArg) : bool :=
  match s with
  | TupleOfInts _ => true
  | Descriptor _ => false
  end.

(** Modelled from the spec: [default_floating_dtype] is defined in
    diffrax/_misc.py, outside the sources at hand. Spec 6: the dtype
    defaults to the platform's default floating-point kind. *)
Definition default_floating_dtype `{B : jax.Backend} : dtype :=
  if jax.enable_x64 then float64 else float32.

(** Modelled from the spec: [force_bitcast_convert_type] is defined in
    diffrax/_misc.py, outside the sources at hand. Spec 4.1 and 9: the
    bit pattern of the scalar's 32-bit representation is reinterpreted as
    a 32-bit signed integer, without numeric conversion. Only the target
    [jnp.int32] is used. *)
Definition force_bitcast_convert_type (t : RealScalarLike) : Z :=
  let w := bit_pattern t in
  if w <? 2 ^ 31 then w else w - 2 ^ 32.

(** Modelled from the spec: [split_by_tree] is defined in
    diffrax/_misc.py, outside the sources at hand. Spec 4.2 and 6(c):
    the seed is split into one sub-seed per leaf of the descriptor, and
    the sub-seeds are laid out in the descriptor's structure, in its
    traversal order. *)
Definition split_by_tree `{B : jax.Backend} {A}
  (key : jax.PRNGKey) (tree : PyTree A) : Result (PyTree jax.PRNGKey) :=
  let treedef := tree_structure tree in
  tree_unflatten treedef (jax.split key (num_leaves treedef)).

(** [eqxi.nondifferentiable(x, name=...)]: the identity on values; it
    only forbids differentiating through [x]. *)
Definition nondifferentiable (x : RealScalarLike) (name : string)
  : RealScalarLike := x.

End misc.

(** ** diffrax/_brownian/path.py *)

Module Path.

Import misc.

Section UnsafeBrownianPath.

Context `{B : jax.Backend}.

Record UnsafeBrownianPath : Type := mkPath {
  shape : PyTree ShapeDtypeStruct;
  key : jax.PRNGKey
}.

Definition __init__ (shape : ShapeArg) (key : jax.PRNGKey)
  : Result UnsafeBrownianPath :=
  let self_shape :=
    match shape with
    | TupleOfInts dims => Leaf (mkSDS dims default_floating_dtype)
    | Descriptor d => d
    end in
  let self_key := key in
  if existsb (fun x => negb (issubdtype (sds_dtype x) inexact))
       (tree_leaves self_shape)
  then raise (ValueError
                "UnsafeBrownianPath dtypes all have to be floating-point.")
  else ret (mkPath self_shape self_key).

Definition _evaluate_leaf (self : UnsafeBrownianPath)
  (t0 t1 : RealScalarLike) (key : jax.PRNGKey) (shape : ShapeDtypeStruct)
  : Result jax.Array :=
  z <- jax.normal key (sds_shape shape) (sds_dtype shape) ;;
  ret (jax.mul z
         (jax.astype (jax.sqrt (jax.sub t1 t0)) (sds_dtype shape))).

Definition evaluate (self : UnsafeBrownianPath)
  (t0 : RealScalarLike) (t1 : option RealScalarLike) (left : bool)
  : Result (PyTree jax.Array) :=
  let '(t0, t1) :=
    match t1 with
    | None => (PyInt 0, t0)
    | Some t1 => (t0, t1)
    end in
  let t0 := nondifferentiable t0 "t0" in
  let t1 := nondifferentiable t1 "t1" in
  let t0_ := force_bitcast_convert_type t0 in
  let t1_ := force_bitcast_convert_type t1 in
  let key := jax.fold_in (key self) t0_ in
  let key := jax.fold_in key t1_ in
  key <- split_by_tree key (shape self) ;;
  tree_map (fun key shape => _evaluate_leaf self t0 t1 key shape)
    key (shape self).

(** The value [__init__] stores in [self.shape] for a given argument. *)
Definition declared (shape : ShapeArg) : PyTree ShapeDtypeStruct :=
  match shape with
  | TupleOfInts dims => Leaf (mkSDS dims default_floating_dtype)
  | Descriptor d => d
  end.

(** The leaves that fail the check of [__init__], with their position
    among the leaves. *)
Definition offending (d : PyTree ShapeDtypeStruct)
  : list (nat * ShapeDtypeStruct) :=
  filter (fun ix => negb (issubdtype (sds_dtype (snd ix)) inexact))
    (combine (seq 0 (num_leaves d)) (tree_leaves d)).

(** The per-query seed: [self.key] with [t0], then [t1], folded in. *)
Definition query_key (self : UnsafeBrownianPath) (t0 t1 : RealScalarLike)
  : jax.PRNGKey :=
  jax.fold_in (jax.fold_in (key self) (force_bitcast_convert_type t0))
    (force_bitcast_convert_type t1).

(** The message of the [ValueError] of [__init__]. *)
Definition error_message : string :=
  "UnsafeBrownianPath dtypes all have to be floating-point.".

(** What one leaf of the result is, given its sub-seed and descriptor. *)
Definition leaf_value (a b : RealScalarLike)
  (ks : jax.PRNGKey * ShapeDtypeStruct) (x : jax.Array) : Prop :=
  exists z,
    jax.normal (fst ks) (sds_shape (snd ks)) (sds_dtype (snd ks)) = inr z /\
    x = jax.mul z
          (jax.astype (jax.sqrt (jax.sub b a)) (sds_dtype (snd ks))).

(** The error of [__init__] identifies an offending leaf: from the
    exception alone one can tell a leaf, by position and descriptor, that
    failed the check. *)
Definition error_identifies_leaf : Prop :=
  exists locate : Exception -> nat * ShapeDtypeStruct,
    forall d k e, __init__ (Descriptor d) k = inl e ->
                  In (locate e) (offending d).

(** The properties [t0] and [t1] of the path: [-jnp.inf] and
    [jnp.inf], by their binary64 patterns 0xFFF0000000000000 and
    0x7FF0000000000000. *)
Definition t0 (self : UnsafeBrownianPath) : RealScalarLike :=
  PyFloat 18442240474082181120.
Definition t1 (self : UnsafeBrownianPath) : RealScalarLike :=
  PyFloat 9218868437227405312.

End UnsafeBrownianPath.

End Path.

(** ** A reference backend

    An executable backend with 64-bit mode off, on which the model runs
    on concrete inputs. Array elements are IEEE 754 values and the
    scalar path (conversion to binary32, square root, product) is the
    IEEE one; keys are integers and the draws of [normal] are finite
    numbers derived from the key, not a normal sample. *)

Module Ref.

Record RArray : Type := mkArr {
  r_shape : list nat;
  r_dtype : dtype;
  r_data : list spec_float
}.

Definition numel (s : list nat) : nat := fold_right Nat.mul 1%nat s.

Definition r_isnan_all (a : RArray) : bool := forallb ieee.is_nan (r_data a).

Definition r_fold_in (k data : Z) : Z := k * 1000003 + data.

Definition r_split (k : Z) (n : nat) : list Z :=
  map (fun i => k * 7919 + Z.of_nat i) (seq 0 n).

(** A finite, non-zero binary32 number for the [i]-th draw from [k]. *)
Definition draw (k : Z) (i : nat) : spec_float :=
  binary_normalize 24 128 (1 + (k + Z.of_nat i) mod 1024) (-5) false.

Definition r_normal (k : Z) (s : list nat) (d : dtype) : Result RArray :=
  if issubdtype d inexact
  then ret (mkArr s (canonicalize_dtype false d)
              (map (draw k) (seq 0 (numel s))))
  else raise (JaxError "normal").

Definition r_sqrt (v : ieee.PyValue) : RArray :=
  mkArr [] float32 [ieee.sqrt false v].

Definition r_astype (a : RArray) (d : dtype) : RArray :=
  mkArr (r_shape a) (canonicalize_dtype false d) (r_data a).

Definition r_mul (a c : RArray) : RArray :=
  mkArr (r_shape a) (r_dtype a)
    match r_data c with
    | [y] => map (fun x => SFmul 24 128 x y) (r_data a)
    | _ => map (fun _ => S754_nan) (r_data a)
    end.

#[export] Instance backend : jax.Backend := {
  jax.PRNGKey := Z;
  jax.Array := RArray;
  jax.enable_x64 := false;
  jax.arr_shape := r_shape;
  jax.arr_dtype := r_dtype;
  jax.isnan_all := r_isnan_all;
  jax.fold_in := r_fold_in;
  jax.split := r_split;
  jax.normal := r_normal;
  jax.sqrt := r_sqrt;
  jax.astype := r_astype;
  jax.mul := r_mul
}.

End Ref.

(** ** Sample inputs *)

Module Demo.

Import misc Path.

(** The nested descriptor [{"a": (2,), "b": (4,)}] in float32. *)
Definition nested : PyTree ShapeDtypeStruct :=
  Node (PyDict ["a"; "b"]%string)
    [Leaf (mkSDS [2%nat] float32); Leaf (mkSDS [4%nat] float32)].

(** A deeper descriptor mixing containers and dtypes. *)
Definition deep : PyTree ShapeDtypeStruct :=
  Node PyTuple
    [Leaf (mkSDS [3%nat] float64);
     Node PyList [Node PyNone []; Leaf (mkSDS [] complex64)];
     nested].

(** Descriptors with one leaf that is not inexact, at different places. *)
Definition int_first : PyTree ShapeDtypeStruct :=
  Node PyTuple [Leaf (mkSDS [2%nat] int32); Leaf (mkSDS [4%nat] float32)].
Definition bool_second : PyTree ShapeDtypeStruct :=
  Node (PyDict ["a"; "b"]%string)
    [Leaf (mkSDS [2%nat] float32); Leaf (mkSDS [4%nat] bool_)].

(** A single complex leaf. *)
Definition complex_leaf : PyTree ShapeDtypeStruct :=
  Leaf (mkSDS [3%nat] complex64).

(** The floats 0.5, 1.0, +0.0 and -0.0, by their binary64 patterns. *)
Definition half : RealScalarLike := PyFloat 4602678819172646912.
Definition one : RealScalarLike := PyFloat 4607182418800017408.
Definition pos_zero : RealScalarLike := PyFloat 0.
Definition neg_zero : RealScalarLike := PyFloat 9223372036854775808.

Definition seed : @jax.PRNGKey Ref.backend := 42.

Definition sampler : @UnsafeBrownianPath Ref.backend := mkPath nested seed.

End Demo.

(** ** Further sample inputs *)

Module DemoMore.

Import misc Path.

(** A descriptor without leaves: [[None, {}]]. *)
Definition no_leaves : PyTree ShapeDtypeStruct :=
  Node PyList [Node PyNone []; Node (PyDict []) []].

(** A pair sharing its first leaf with [Demo.nested], in another
    container and with another second leaf. *)
Definition pair : PyTree ShapeDtypeStruct :=
  Node PyTuple
    [Leaf (mkSDS [2%nat] float32); Leaf (mkSDS [7%nat] complex64)].

(** The dtypes of [Demo.nested] on other shapes, in a list. *)
Definition reshaped : PyTree ShapeDtypeStruct :=
  Node PyList
    [Node PyTuple [Leaf (mkSDS [] float32)];
     Leaf (mkSDS [5%nat; 5%nat] float32)].

(** The floats -1.0 and 1e-46, by their binary64 patterns. The second
    is below half the least positive binary32 number. *)
Definition minus_one : RealScalarLike := PyFloat 13830554455654793216.
Definition tiny : RealScalarLike := PyFloat 3918770277926589793.

(** A descriptor whose leaf is declared in float64. *)
Definition wide : PyTree ShapeDtypeStruct :=
  Node PyTuple [Leaf (mkSDS [3%nat] float64)].

End DemoMore.

(** * Properties *)

(** ** The error monad *)

Lemma bind_inr {A B} (m : Result A) (k : A -> Result B) (b : B) :
  bind m k = inr b -> exists a, m = inr a /\ k a = inr b.
Proof.
  destruct m as [e | a]; simpl; intros H; [discriminate | eauto].
Qed.

(** ** The dtype lattice *)

Lemma floating_is_inexact (d : dtype) :
  issubdtype d floating = true -> issubdtype d inexact = true.
Proof. destruct d; simpl; intros H; reflexivity || discriminate H. Qed.

Lemma complex_is_inexact (d : dtype) :
  issubdtype d complexfloating = true -> issubdtype d inexact = true.
Proof. destruct d; simpl; intros H; reflexivity || discriminate H. Qed.

Lemma complex_not_floating (d : dtype) :
  issubdtype d complexfloating = true -> issubdtype d floating = false.
Proof. destruct d; simpl; intros H; reflexivity || discriminate H. Qed.

Lemma inexact_cases (d : dtype) :
  issubdtype d inexact = true <->
  issubdtype d floating = true \/ issubdtype d complexfloating = true.
Proof.
  destruct d; simpl; split; intros H; auto;
    destruct H as [H | H]; discriminate H.
Qed.

(** ** Pytrees *)

Section PytreeFacts.

Lemma NodeData_eqb_refl (nd : NodeData) : NodeData_eqb nd nd = true.
Proof.
  destruct nd; simpl; try reflexivity.
  destruct (list_eq_dec string_dec keys keys); congruence.
Qed.

Lemma refill_node {A} nd cs (xs : list A) :
  refill (Node nd cs) xs =
  match refill_all cs xs with
  | None => None
  | Some (ts, rest) => Some (Node nd ts, rest)
  end.
Proof.
  simpl.
  assert (E : forall l ys,
    (fix refill_all (cs0 : list (PyTree unit)) (xs0 : list A) {struct cs0}
       : option (list (PyTree A) * list A) :=
       match cs0 with
       | [] => Some ([], xs0)
       | c :: cs' =>
           match refill c xs0 with
           | Some (t, rest) =>
               match refill_all cs' rest with
               | Some (ts, rest') => Some (t :: ts, rest')
               | None => None
               end
           | None => None
           end
       end) l ys = refill_all l ys).
  { induction l as [| c l IH]; intros ys; simpl; [reflexivity |].
    destruct (refill c ys) as [[t rest] |]; [| reflexivity].
    rewrite IH. reflexivity. }
  rewrite E. reflexivity.
Qed.

Lemma tree_map_node {A B C} (f : A -> B -> Result C) nd nd' cs cs' :
  tree_map f (Node nd cs) (Node nd' cs') =
  if negb (NodeData_eqb nd nd') then raise (JaxError "tree_map")
  else ts <- tree_map_all f cs cs' ;; ret (Node nd ts).
Proof.
  simpl. destruct (negb (NodeData_eqb nd nd')); [reflexivity |].
  f_equal. revert cs'.
  induction cs as [| x r IH]; intros [| y r']; simpl; try reflexivity.
  rewrite IH. reflexivity.
Qed.

Lemma tree_leaves_structure {A} (t : PyTree A) :
  List.length (tree_leaves (tree_structure t)) = List.length (tree_leaves t).
Proof.
  induction t as [a | nd cs IH] using PyTree_forall_ind; simpl; [reflexivity |].
  induction IH as [| c cs Hc _ IHcs]; simpl; [reflexivity |].
  rewrite !length_app, Hc, IHcs. reflexivity.
Qed.

Lemma num_leaves_structure {A} (t : PyTree A) :
  num_leaves (tree_structure t) = num_leaves t.
Proof. apply tree_leaves_structure. Qed.

Lemma structure_leaves_length {A B} (ta : PyTree A) (tb : PyTree B) :
  tree_structure ta = tree_structure tb ->
  List.length (tree_leaves ta) = List.length (tree_leaves tb).
Proof.
  intros E.
  rewrite <- (tree_leaves_structure ta), <- (tree_leaves_structure tb), E.
  reflexivity.
Qed.

(** Refilling the structure of [t] from a supply that starts with as
    many leaves as [t] has consumes exactly those, in order. *)
Lemma refill_structure {A B} (t : PyTree A) :
  forall (xs rest : list B),
    List.length xs = num_leaves t ->
    exists t',
      refill (tree_structure t) (xs ++ rest) = Some (t', rest) /\
      tree_structure t' = tree_structure t /\
      tree_leaves t' = xs.
Proof.
  unfold num_leaves.
  induction t as [a | nd cs IH] using PyTree_forall_ind; intros xs rest Hlen.
  - destruct xs as [| x [| y xs]]; simpl in Hlen; try discriminate.
    exists (Leaf x). simpl. auto.
  - assert (H : exists ts,
      refill_all (map tree_structure cs) (xs ++ rest) = Some (ts, rest) /\
      map tree_structure ts = map tree_structure cs /\
      flat_map tree_leaves ts = xs).
    { simpl in Hlen. revert xs Hlen.
      induction IH as [| c cs Hc _ IHcs]; intros xs Hlen.
      - destruct xs; simpl in Hlen; [| discriminate].
        exists []. simpl. auto.
      - simpl in Hlen. rewrite length_app in Hlen.
        pose proof (firstn_skipn (List.length (tree_leaves c)) xs) as Hsplit.
        set (xs1 := firstn (List.length (tree_leaves c)) xs) in *.
        set (xs2 := skipn (List.length (tree_leaves c)) xs) in *.
        assert (L1 : List.length xs1 = List.length (tree_leaves c)).
        { unfold xs1. rewrite length_firstn. lia. }
        assert (L2 : List.length xs2 = List.length (flat_map tree_leaves cs)).
        { unfold xs2. rewrite length_skipn. lia. }
        destruct (Hc xs1 (xs2 ++ rest) L1) as (t' & Ht' & Hs' & Hl').
        destruct (IHcs xs2 L2) as (ts & Hts & Hss & Hls).
        exists (t' :: ts). simpl.
        rewrite <- Hsplit, <- app_assoc, Ht', Hts.
        repeat split; congruence. }
    destruct H as (ts & Hts & Hss & Hls).
    exists (Node nd ts).
    change (tree_structure (Node nd cs))
      with (Node nd (map tree_structure cs)).
    rewrite refill_node, Hts. simpl. repeat split; congruence.
Qed.

(** [tree_unflatten] on the structure of [t] with exactly as many
    leaves as [t] has. *)
Lemma tree_unflatten_structure {A B} (t : PyTree A) (xs : list B) :
  List.length xs = num_leaves t ->
  exists t',
    tree_unflatten (tree_structure t) xs = inr t' /\
    tree_structure t' = tree_structure t /\
    tree_leaves t' = xs.
Proof.
  intros Hlen.
  destruct (refill_structure t xs [] Hlen) as (t' & Ht' & Hs & Hl).
  exists t'. unfold tree_unflatten.
  rewrite app_nil_r in Ht'. rewrite Ht'. auto.
Qed.

Lemma combine_app_same {A B} (la ra : list A) (lb rb : list B) :
  List.length la = List.length lb ->
  combine (la ++ ra) (lb ++ rb) = combine la lb ++ combine ra rb.
Proof.
  revert lb. induction la as [| a la IH]; intros [| b lb] H;
    simpl in *; try discriminate; [reflexivity |].
  rewrite IH by lia. reflexivity.
Qed.

(** [tree_map] does not raise on two trees of one structure when [f]
    does not raise on any pair of corresponding leaves, and then the
    result has that structure and holds the values of [f], in order. *)
Lemma tree_map_ok {A B C} (f : A -> B -> Result C) (ta : PyTree A) :
  forall tb : PyTree B,
    tree_structure ta = tree_structure tb ->
    (forall a b, In (a, b) (combine (tree_leaves ta) (tree_leaves tb)) ->
                 exists c, f a b = inr c) ->
    exists tc,
      tree_map f ta tb = inr tc /\
      tree_structure tc = tree_structure ta /\
      Forall2 (fun ab c => f (fst ab) (snd ab) = inr c)
        (combine (tree_leaves ta) (tree_leaves tb)) (tree_leaves tc).
Proof.
  induction ta as [a | nd cs IH] using PyTree_forall_ind;
    intros [b | nd' cs'] Hs Hf; simpl in Hs; try discriminate.
  - destruct (Hf a b) as [c Hc]; [simpl; auto |].
    exists (Leaf c). simpl. rewrite Hc. simpl. auto.
  - injection Hs as Hnd Hcs. subst nd'.
    assert (H : exists ts,
      tree_map_all f cs cs' = inr ts /\
      map tree_structure ts = map tree_structure cs /\
      Forall2 (fun ab c => f (fst ab) (snd ab) = inr c)
        (combine (flat_map tree_leaves cs) (flat_map tree_leaves cs'))
        (flat_map tree_leaves ts)).
    { simpl in Hf. clear nd. revert cs' Hcs Hf.
      induction IH as [| x r Hx _ IHr]; intros [| y r'] Hcs Hf;
        simpl in Hcs; try discriminate.
      - exists []. simpl. auto.
      - injection Hcs as Hxy Hrr'.
        pose proof (structure_leaves_length x y Hxy) as Hlen.
        simpl in Hf. rewrite combine_app_same in Hf by exact Hlen.
        destruct (Hx y Hxy) as (t & Ht & Hst & Hlt).
        { intros a b Hin. apply Hf, in_or_app. auto. }
        destruct (IHr r' Hrr') as (ts & Hts & Hsts & Hlts).
        { intros a b Hin. apply Hf, in_or_app. auto. }
        exists (t :: ts). simpl. rewrite Ht, Hts. simpl.
        rewrite combine_app_same by exact Hlen.
        repeat split; [congruence |].
        apply Forall2_app; assumption. }
    destruct H as (ts & Hts & Hsts & Hlts).
    exists (Node nd ts).
    rewrite tree_map_node, NodeData_eqb_refl, Hts. simpl.
    repeat split; [congruence | exact Hlts].
Qed.

(** [tree_map] only depends on the values of [f]. *)
Lemma tree_map_ext {A B C} (f g : A -> B -> Result C) :
  (forall a b, f a b = g a b) ->
  forall (ta : PyTree A) (tb : PyTree B), tree_map f ta tb = tree_map g ta tb.
Proof.
  intros E ta.
  induction ta as [a | nd cs IH] using PyTree_forall_ind; intros [b | nd' cs'];
    try reflexivity.
  - simpl. rewrite E. reflexivity.
  - rewrite !tree_map_node.
    destruct (negb (NodeData_eqb nd nd')); [reflexivity |].
    f_equal. revert cs'.
    induction IH as [| x r Hx _ IHr]; intros [| y r']; simpl; try reflexivity.
    rewrite Hx, IHr. reflexivity.
Qed.

End PytreeFacts.

(** ** The reference backend meets the laws *)

Lemma SFsub_zero_r (prec emax : Z) (x : spec_float) :
  SFsub prec emax x (S754_zero false) = x.
Proof. destruct x as [[|] | [|] | | s m e]; reflexivity. Qed.

Lemma SFmul_nan_r (prec emax : Z) (x : spec_float) :
  SFmul prec emax x S754_nan = S754_nan.
Proof. destruct x; reflexivity. Qed.

Lemma SFsqrt_negative (prec emax : Z) (x : spec_float) :
  ieee.negative x = true -> SFsqrt prec emax x = S754_nan.
Proof. destruct x as [s | [|] | | [|] m e]; simpl; congruence. Qed.

Lemma ref_mul_scalar_nan (a c : Ref.RArray) :
  Ref.r_isnan_all c = true -> Ref.r_isnan_all (Ref.r_mul a c) = true.
Proof.
  unfold Ref.r_isnan_all, Ref.r_mul. simpl. intros Hc.
  assert (N : forallb ieee.is_nan
                (map (fun _ : spec_float => S754_nan) (Ref.r_data a)) = true).
  { induction (Ref.r_data a) as [| x l IH]; simpl; auto. }
  destruct (Ref.r_data c) as [| y [| y' l]]; try exact N.
  simpl in Hc. rewrite andb_true_r in Hc.
  destruct y; try discriminate. clear N Hc.
  induction (Ref.r_data a) as [| x l IH]; simpl; [reflexivity |].
  rewrite SFmul_nan_r. exact IH.
Qed.

Lemma ref_sqrt_sub_int_zero (t : RealScalarLike) :
  Ref.r_sqrt (jax.sub t (PyInt 0)) = Ref.r_sqrt (jax.sub t (PyFloat 0)).
Proof.
  assert (Z0 : ieee.binary64_of_bits 0 = S754_zero false)
    by (vm_compute; reflexivity).
  assert (I0 : ieee.of_int 0 = S754_zero false) by reflexivity.
  unfold Ref.r_sqrt, ieee.sqrt, ieee.to_backend, jax.sub, ieee.sub,
    ieee.value, ieee.as_float.
  rewrite Z0.
  destruct t as [n | b].
  - rewrite SFsub_zero_r, Z.sub_0_r. reflexivity.
  - rewrite I0. reflexivity.
Qed.

#[export] Instance ref_laws : jax.BackendLaws Ref.backend.
Proof.
  constructor; cbn [jax.split jax.normal jax.arr_shape jax.arr_dtype
                    jax.sqrt jax.astype jax.mul jax.enable_x64 jax.PRNGKey
                    jax.Array Ref.backend].
  - intros k n. unfold Ref.r_split. rewrite length_map, length_seq. reflexivity.
  - intros k s d H. unfold Ref.r_normal. rewrite H. eexists. simpl. eauto.
  - reflexivity.
  - reflexivity.
  - reflexivity.
  - reflexivity.
  - reflexivity.
  - exact ref_sqrt_sub_int_zero.
Defined.

#[export] Instance ref_ieee : jax.IEEELaws Ref.backend.
Proof.
  constructor; cbn [jax.isnan_all jax.arr_shape jax.sqrt jax.astype jax.mul
                    jax.enable_x64 jax.Array Ref.backend].
  - intros v. unfold Ref.r_isnan_all, Ref.r_sqrt.
    cbn [Ref.r_data forallb]. apply andb_true_r.
  - intros a d _ H. exact H.
  - intros a c _ H. apply ref_mul_scalar_nan, H.
Defined.

(** ** The constructor and [evaluate], for any backend *)

Section PathFacts.

Import misc Path.

Context `{B : jax.Backend}.

(** The check of [__init__], read off its leaves. *)
Lemma existsb_not_inexact (l : list ShapeDtypeStruct) :
  existsb (fun x => negb (issubdtype (sds_dtype x) inexact)) l = false <->
  Forall (fun x => issubdtype (sds_dtype x) inexact = true) l.
Proof.
  induction l as [| x l IH]; simpl.
  - split; auto.
  - rewrite orb_false_iff, negb_false_iff, IH. split.
    + intros [H1 H2]. constructor; assumption.
    + intros H. inversion H; subst. auto.
Qed.

Lemma init_cases (arg : ShapeArg) (k : jax.PRNGKey) :
  (__init__ arg k = inr (mkPath (declared arg) k) /\
   Forall (fun x => issubdtype (sds_dtype x) inexact = true)
     (tree_leaves (declared arg)))
  \/
  (__init__ arg k = inl (ValueError error_message) /\
   Exists (fun x => issubdtype (sds_dtype x) inexact = false)
     (tree_leaves (declared arg))).
Proof.
  unfold __init__. fold (declared arg).
  destruct (existsb _ (tree_leaves (declared arg))) eqn:E.
  - right. split; [reflexivity |].
    apply existsb_exists in E. destruct E as (x & Hin & Hx).
    apply Exists_exists. exists x. split; [exact Hin |].
    apply negb_true_iff, Hx.
  - left. split; [reflexivity |]. apply existsb_not_inexact, E.
Qed.

(** A sampler that came out of [__init__] has the declared shape, the
    given key, and inexact leaf dtypes only. *)
Lemma init_inr (arg : ShapeArg) (k : jax.PRNGKey) (p : UnsafeBrownianPath) :
  __init__ arg k = inr p ->
  p = mkPath (declared arg) k /\
  Forall (fun x => issubdtype (sds_dtype x) inexact = true)
    (tree_leaves (shape p)).
Proof.
  intros H. destruct (init_cases arg k) as [[E F] | [E _]];
    rewrite E in H; [| discriminate].
  injection H as <-. auto.
Qed.

Context {L : jax.BackendLaws B}.

(** One leaf: [normal] accepts the dtype, and the product has the
    declared shape and dtype. *)
Lemma evaluate_leaf_ok (self : UnsafeBrownianPath) (a b : RealScalarLike)
  (k : jax.PRNGKey) (sd : ShapeDtypeStruct) :
  issubdtype (sds_dtype sd) inexact = true ->
  exists z x,
    jax.normal k (sds_shape sd) (sds_dtype sd) = inr z /\
    x = jax.mul z (jax.astype (jax.sqrt (jax.sub b a)) (sds_dtype sd)) /\
    _evaluate_leaf self a b k sd = inr x /\
    jax.arr_shape x = sds_shape sd /\
    jax.arr_dtype x = canonicalize_dtype jax.enable_x64 (sds_dtype sd).
Proof.
  intros Hd.
  destruct (jax.normal_inexact k (sds_shape sd) _ Hd) as (z & Hz & Hs & Ht).
  exists z. eexists. split; [exact Hz |]. split; [reflexivity |].
  unfold _evaluate_leaf. rewrite Hz. simpl. split; [reflexivity |]. split.
  - rewrite jax.mul_scalar_shape; [exact Hs |].
    rewrite jax.astype_shape. apply jax.sqrt_shape.
  - rewrite jax.mul_same_dtype; [exact Ht |].
    rewrite jax.astype_dtype. symmetry. exact Ht.
Qed.

(** The two-argument call on a sampler with inexact leaves returns, and
    its leaves are the per-leaf values over the split of the query key. *)
Lemma evaluate_some_ok (self : UnsafeBrownianPath) (a b : RealScalarLike)
  (left : bool) :
  Forall (fun x => issubdtype (sds_dtype x) inexact = true)
    (tree_leaves (shape self)) ->
  exists r,
    evaluate self a (Some b) left = inr r /\
    tree_structure r = tree_structure (shape self) /\
    Forall2 (leaf_value a b)
      (combine (jax.split (query_key self a b) (num_leaves (shape self)))
         (tree_leaves (shape self)))
      (tree_leaves r).
Proof.
  intros Hv.
  set (subs := jax.split (query_key self a b) (num_leaves (shape self))).
  assert (Hlen : List.length subs = num_leaves (shape self))
    by apply jax.split_length.
  destruct (tree_unflatten_structure (shape self) subs Hlen)
    as (keys & Hk & Hks & Hkl).
  destruct (tree_map_ok
              (fun key shape => _evaluate_leaf self a b key shape)
              keys (shape self) Hks) as (r & Hr & Hrs & Hrl).
  { intros k sd Hin. apply in_combine_r in Hin.
    rewrite Forall_forall in Hv.
    destruct (evaluate_leaf_ok self a b k sd (Hv sd Hin))
      as (z & x & _ & _ & Hx & _).
    eauto. }
  exists r. split; [| split].
  - unfold evaluate, split_by_tree, nondifferentiable.
    rewrite num_leaves_structure.
    fold (query_key self a b). fold subs. rewrite Hk. simpl. exact Hr.
  - congruence.
  - rewrite Hkl in Hrl. rewrite Forall_forall in Hv.
    assert (Hin : forall ks, In ks (combine subs (tree_leaves (shape self))) ->
                             In (snd ks) (tree_leaves (shape self))).
    { intros [k sd] H. eapply in_combine_r, H. }
    revert Hrl Hin. generalize (combine subs (tree_leaves (shape self))).
    intros l Hrl. induction Hrl as [| ks x l xs Hx _ IH]; intros Hin.
    + constructor.
    + constructor; [| apply IH; intros; apply Hin; right; assumption].
      destruct (evaluate_leaf_ok self a b (fst ks) (snd ks))
        as (z & x' & Hz & Hx' & He & _).
      { apply Hv, Hin. left. reflexivity. }
      exists z. split; [exact Hz |]. congruence.
Qed.

End PathFacts.

(** ** Facts about the leaves of a result *)

Lemma Forall2_combine_snd {K S X} (P : K * S -> X -> Prop)
  (Q : S -> X -> Prop) (ks : list K) :
  forall (l : list S) (r : list X),
    List.length ks = List.length l ->
    (forall k s x, In s l -> P (k, s) x -> Q s x) ->
    Forall2 P (combine ks l) r -> Forall2 Q l r.
Proof.
  induction ks as [| k ks IH]; intros [| s l] r Hlen HPQ H;
    simpl in *; try discriminate.
  - inversion H. constructor.
  - inversion H as [| ? x ? xs Hx Hxs]; subst.
    constructor; [eapply HPQ; eauto |].
    apply IH; [lia | intros; eapply HPQ; eauto | exact Hxs].
Qed.

Lemma Forall2_right {S X} (Q : X -> Prop) (l : list S) (r : list X) :
  Forall2 (fun _ x => Q x) l r -> Forall Q r.
Proof. induction 1; constructor; assumption. Qed.

Section LeafFacts.

Import misc Path.

Context `{B : jax.Backend} {L : jax.BackendLaws B}.

Lemma leaf_value_shape (a b : RealScalarLike) (k : jax.PRNGKey)
  (sd : ShapeDtypeStruct) (x : jax.Array) :
  issubdtype (sds_dtype sd) inexact = true ->
  leaf_value a b (k, sd) x ->
  jax.arr_shape x = sds_shape sd /\
  jax.arr_dtype x = canonicalize_dtype jax.enable_x64 (sds_dtype sd).
Proof.
  intros Hd (z & Hz & Hx). simpl in Hz, Hx.
  destruct (jax.normal_inexact k (sds_shape sd) _ Hd) as (z' & Hz' & Hs & Ht).
  assert (z' = z) by congruence. subst z' x. split.
  - rewrite jax.mul_scalar_shape; [exact Hs |].
    rewrite jax.astype_shape. apply jax.sqrt_shape.
  - rewrite jax.mul_same_dtype; [exact Ht |].
    rewrite jax.astype_dtype. symmetry. exact Ht.
Qed.

Context {I : jax.IEEELaws B}.

Lemma leaf_value_nan (a b : RealScalarLike) (k : jax.PRNGKey)
  (sd : ShapeDtypeStruct) (x : jax.Array) :
  ieee.negative (ieee.to_backend jax.enable_x64 (jax.sub b a)) = true ->
  issubdtype (sds_dtype sd) inexact = true ->
  leaf_value a b (k, sd) x ->
  jax.isnan_all x = true.
Proof.
  intros Hneg Hd (z & _ & Hx). simpl in Hx. subst x.
  apply jax.mul_scalar_nan.
  - rewrite jax.astype_shape. apply jax.sqrt_shape.
  - apply jax.astype_nan; [exact Hd |].
    rewrite jax.sqrt_isnan. unfold ieee.sqrt.
    destruct jax.enable_x64; rewrite SFsqrt_negative by exact Hneg;
      reflexivity.
Qed.

(** A call with [t1] omitted is, by the defaulting at the head of
    [evaluate], the call on [(0, t0)]. *)
Lemma evaluate_none (self : UnsafeBrownianPath) (t : RealScalarLike)
  (left : bool) :
  evaluate self t None left = evaluate self (PyInt 0) (Some t) left.
Proof. reflexivity. Qed.

(** The endpoints a call works on. *)
Lemma evaluate_endpoints (self : UnsafeBrownianPath) (t0 : RealScalarLike)
  (t1 : option RealScalarLike) (left : bool) :
  exists a b, evaluate self t0 t1 left = evaluate self a (Some b) left.
Proof.
  destruct t1 as [t1 |].
  - exists t0, t1. reflexivity.
  - exists (PyInt 0), t0. reflexivity.
Qed.

End LeafFacts.

(** ** Determinism *)

Lemma canonicalize_dtype_id (x64 : bool) (d : dtype) :
  x64 = true \/ is_64bit d = false -> canonicalize_dtype x64 d = d.
Proof.
  intros [-> | H]; [reflexivity |].
  destruct x64; [reflexivity |]. destruct d; simpl in *; congruence.
Qed.

Section Claims.

Import misc Path.

Context `{B : jax.Backend} {L : jax.BackendLaws B} {I : jax.IEEELaws B}.

(** C1. Two samplers constructed from the same descriptor and seed
    return, for the same arguments of [evaluate], one and the same
    structured result; the call returns a value, not an exception. *)
Theorem evaluate_deterministic (arg : ShapeArg) (k : jax.PRNGKey)
  (p1 p2 : UnsafeBrownianPath) (t0 : RealScalarLike)
  (t1 : option RealScalarLike) (left : bool) :
  __init__ arg k = inr p1 ->
  __init__ arg k = inr p2 ->
  exists r,
    evaluate p1 t0 t1 left = inr r /\ evaluate p2 t0 t1 left = inr r.
Proof.
  intros H1 H2.
  assert (p1 = p2) by congruence. subst p2.
  destruct (init_inr _ _ H1) as [_ Hv].
  destruct (evaluate_endpoints p1 t0 t1 left) as (a & b & E).
  destruct (evaluate_some_ok p1 a b left Hv) as (r & Hr & _).
  exists r. rewrite E. auto.
Qed.

(** ** The algorithm of [evaluate] *)

(** C2. For a query [(t0, t1)] the per-query seed is the base seed with
    the bit-reinterpretation of [t0] folded in and then that of [t1]; it
    is split into one sub-seed per leaf of the descriptor; the result has
    the descriptor's structure, and each leaf is the standard-normal draw
    of the leaf's shape and dtype from its sub-seed times
    [sqrt(t1 - t0)] cast to the leaf's dtype. *)
Theorem evaluate_algorithm (arg : ShapeArg) (k : jax.PRNGKey)
  (p : UnsafeBrownianPath) (t0 t1 : RealScalarLike) (left : bool) :
  __init__ arg k = inr p ->
  let seed :=
    jax.fold_in (jax.fold_in k (force_bitcast_convert_type t0))
      (force_bitcast_convert_type t1) in
  let leaves := tree_leaves (declared arg) in
  let subseeds := jax.split seed (List.length leaves) in
  List.length subseeds = List.length leaves /\
  exists r,
    evaluate p t0 (Some t1) left = inr r /\
    tree_structure r = tree_structure (declared arg) /\
    Forall2
      (fun ks x =>
         exists z,
           jax.normal (fst ks) (sds_shape (snd ks)) (sds_dtype (snd ks))
             = inr z /\
           x = jax.mul z
                 (jax.astype (jax.sqrt (jax.sub t1 t0)) (sds_dtype (snd ks))))
      (combine subseeds leaves) (tree_leaves r).
Proof.
  intros H. destruct (init_inr _ _ H) as [-> Hv]. simpl in Hv. simpl.
  split; [apply jax.split_length |].
  destruct (evaluate_some_ok (mkPath (declared arg) k) t0 t1 left Hv)
    as (r & Hr & Hs & Hl).
  exists r. auto.
Qed.

(** ** Shape fidelity *)

(** C6, as the code has it. For every descriptor the constructor
    accepts and every query, [evaluate] returns a tree of the
    descriptor's structure whose leaf arrays have the shape declared for
    their leaf and the canonical dtype of the declared one: the declared
    dtype itself when 64-bit mode is on or the declared dtype is not a
    64-bit one, and its 32-bit counterpart otherwise. *)
Theorem evaluate_shape_fidelity (arg : ShapeArg) (k : jax.PRNGKey)
  (p : UnsafeBrownianPath) (t0 : RealScalarLike)
  (t1 : option RealScalarLike) (left : bool) :
  __init__ arg k = inr p ->
  exists r,
    evaluate p t0 t1 left = inr r /\
    tree_structure r = tree_structure (declared arg) /\
    Forall2
      (fun sd x =>
         jax.arr_shape x = sds_shape sd /\
         jax.arr_dtype x
         = canonicalize_dtype jax.enable_x64 (sds_dtype sd) /\
         (jax.enable_x64 = true \/ is_64bit (sds_dtype sd) = false ->
          jax.arr_dtype x = sds_dtype sd))
      (tree_leaves (declared arg)) (tree_leaves r).
Proof.
  intros H. destruct (init_inr _ _ H) as [-> Hv]. simpl in Hv.
  destruct (evaluate_endpoints (mkPath (declared arg) k) t0 t1 left)
    as (a & b & E).
  destruct (evaluate_some_ok (mkPath (declared arg) k) a b left Hv)
    as (r & Hr & Hs & Hl).
  exists r. rewrite E. split; [exact Hr |]. split; [exact Hs |].
  simpl in Hl. rewrite Forall_forall in Hv.
  eapply Forall2_combine_snd; [apply jax.split_length | | exact Hl].
  intros k' sd x Hin Hx.
  destruct (leaf_value_shape (Hv sd Hin) Hx) as [Hsh Hdt].
  split; [exact Hsh |]. split; [exact Hdt |].
  intros Hc. rewrite Hdt. apply canonicalize_dtype_id, Hc.
Qed.

(** ** Reversed intervals *)

(** C5, as the code has it. For every query, reversed or not,
    [evaluate] raises nothing and returns a result of the descriptor's
    structure and leaf shapes. When the difference [t1 - t0], as jax
    takes it in (in binary32, or binary64 in 64-bit mode), is below zero,
    its square root is NaN and every element of every leaf is NaN; when
    it is a zero, the square root is that zero, not NaN. *)
Theorem evaluate_reversed_interval (arg : ShapeArg) (k : jax.PRNGKey)
  (p : UnsafeBrownianPath) (t0 t1 : RealScalarLike) (left : bool) :
  __init__ arg k = inr p ->
  exists r,
    evaluate p t0 (Some t1) left = inr r /\
    tree_structure r = tree_structure (declared arg) /\
    Forall2 (fun sd x => jax.arr_shape x = sds_shape sd)
      (tree_leaves (declared arg)) (tree_leaves r) /\
    (ieee.negative (ieee.to_backend jax.enable_x64 (jax.sub t1 t0)) = true ->
     Forall (fun x => jax.isnan_all x = true) (tree_leaves r)) /\
    (ieee.is_zero (ieee.to_backend jax.enable_x64 (jax.sub t1 t0)) = true ->
     jax.isnan_all (jax.sqrt (jax.sub t1 t0)) = false).
Proof.
  intros H. destruct (init_inr _ _ H) as [-> Hv]. simpl in Hv.
  destruct (evaluate_some_ok (mkPath (declared arg) k) t0 t1 left Hv)
    as (r & Hr & Hs & Hl).
  exists r. split; [exact Hr |]. split; [exact Hs |].
  simpl in Hl. rewrite Forall_forall in Hv. split; [| split].
  - eapply Forall2_combine_snd; [apply jax.split_length | | exact Hl].
    intros k' sd x Hin Hx.
    eapply proj1, leaf_value_shape; eauto.
  - intros Hneg.
    apply Forall2_right with (l := tree_leaves (declared arg)).
    eapply Forall2_combine_snd; [apply jax.split_length | | exact Hl].
    intros k' sd x Hin Hx. eapply leaf_value_nan; eauto.
  - intros Hz. rewrite jax.sqrt_isnan. unfold ieee.sqrt.
    destruct jax.enable_x64;
      destruct (ieee.to_backend _ (jax.sub t1 t0)); try discriminate;
      reflexivity.
Qed.

End Claims.

(** ** Construction *)

Lemma filter_combine_seq_nonempty {S} (q : S -> bool) (l : list S) :
  forall s : nat,
    Exists (fun x => q x = true) l ->
    filter (fun ix => q (snd ix)) (combine (seq s (List.length l)) l) <> [].
Proof.
  induction l as [| a l IH]; intros s E; inversion E; subst; simpl.
  - rewrite H0. discriminate.
  - destruct (q a); [discriminate | apply IH; assumption].
Qed.

Section Construction.

Import misc Path.

Context `{B : jax.Backend}.

(** C3, as the code has it. Construction raises the [ValueError], and
    yields no sampler to query, exactly when some leaf dtype is not an
    inexact kind (neither floating nor complex floating); it succeeds
    exactly when every leaf dtype is inexact, so in particular when every
    leaf dtype is floating-point, and always for a tuple of integers. *)
Theorem init_rejects_non_inexact (arg : ShapeArg) (k : jax.PRNGKey) :
  ((exists x, In x (tree_leaves (declared arg)) /\
              issubdtype (sds_dtype x) inexact = false) <->
   __init__ arg k = inl (ValueError error_message)) /\
  (__init__ arg k = inl (ValueError error_message) ->
   forall p, __init__ arg k <> inr p) /\
  ((forall x, In x (tree_leaves (declared arg)) ->
              issubdtype (sds_dtype x) inexact = true) <->
   __init__ arg k = inr (mkPath (declared arg) k)) /\
  ((forall x, In x (tree_leaves (declared arg)) ->
              issubdtype (sds_dtype x) floating = true) ->
   __init__ arg k = inr (mkPath (declared arg) k)) /\
  (is_tuple_of_ints arg = true ->
   __init__ arg k = inr (mkPath (declared arg) k)).
Proof.
  assert (Hno : forall l : list ShapeDtypeStruct,
    Forall (fun x => issubdtype (sds_dtype x) inexact = true) l ->
    Exists (fun x => issubdtype (sds_dtype x) inexact = false) l -> False).
  { intros l F E. rewrite Forall_forall in F. rewrite Exists_exists in E.
    destruct E as (x & Hin & Hx). rewrite (F x Hin) in Hx. discriminate. }
  assert (Hall :
    (forall x, In x (tree_leaves (declared arg)) ->
               issubdtype (sds_dtype x) inexact = true) ->
    __init__ arg k = inr (mkPath (declared arg) k)).
  { intros H. destruct (init_cases arg k) as [[E _] | [_ X]]; [exact E |].
    exfalso. apply (Hno _ (proj2 (Forall_forall _ _) H) X). }
  split; [| split; [| split; [| split]]].
  - split.
    + intros H. destruct (init_cases arg k) as [[_ F] | [E _]]; [| exact E].
      exfalso. apply (Hno _ F). apply Exists_exists, H.
    + intros H. destruct (init_cases arg k) as [[E _] | [_ X]].
      * rewrite E in H. discriminate.
      * apply Exists_exists, X.
  - intros H p Hp. rewrite H in Hp. discriminate.
  - split; [exact Hall |].
    intros H. destruct (init_cases arg k) as [[_ F] | [E _]].
    + apply Forall_forall, F.
    + rewrite E in H. discriminate.
  - intros H. apply Hall. intros x Hin. apply floating_is_inexact, H, Hin.
  - intros H. apply Hall. destruct arg as [dims | d]; [| discriminate].
    simpl. intros x [<- | []]. simpl. unfold default_floating_dtype.
    destruct jax.enable_x64; reflexivity.
Qed.

(** C9, as the code has it. Whenever construction fails, the exception is
    the [ValueError] with the one fixed message, whatever the descriptor;
    some leaf of the descriptor fails the check, but the exception does
    not say which. *)
Theorem init_error_is_fixed (arg : ShapeArg) (k : jax.PRNGKey)
  (e : Exception) :
  __init__ arg k = inl e ->
  e = ValueError
        "UnsafeBrownianPath dtypes all have to be floating-point." /\
  offending (declared arg) <> [].
Proof.
  intros H. destruct (init_cases arg k) as [[E _] | [E X]];
    rewrite E in H; [discriminate |].
  injection H as <-. split; [reflexivity |].
  unfold offending, num_leaves.
  apply (filter_combine_seq_nonempty
           (fun x => negb (issubdtype (sds_dtype x) inexact))).
  apply Exists_exists in X. destruct X as (x & Hin & Hx).
  apply Exists_exists. exists x. split; [exact Hin |].
  rewrite Hx. reflexivity.
Qed.

(** C10. Construction accepts complex dtypes: a descriptor whose leaf
    dtypes are all complex floating, none of which is a floating-point
    kind, is accepted, since the check only rejects dtypes outside the
    inexact kinds. *)
Theorem init_accepts_complex (d : PyTree ShapeDtypeStruct)
  (k : jax.PRNGKey) :
  (forall x, In x (tree_leaves d) ->
             issubdtype (sds_dtype x) complexfloating = true) ->
  __init__ (Descriptor d) k = inr (mkPath d k) /\
  (forall x, In x (tree_leaves d) ->
             issubdtype (sds_dtype x) floating = false /\
             issubdtype (sds_dtype x) inexact = true).
Proof.
  intros H. split.
  - destruct (init_cases (Descriptor d) k) as [[E _] | [_ X]]; [exact E |].
    exfalso. apply Exists_exists in X. destruct X as (x & Hin & Hx).
    simpl in Hin. rewrite (complex_is_inexact _ (H x Hin)) in Hx.
    discriminate.
  - intros x Hin. split.
    + apply complex_not_floating, H, Hin.
    + apply complex_is_inexact, H, Hin.
Qed.

End Construction.

(** ** The arguments of [evaluate] *)

Section Arguments.

Import misc Path.

Context `{B : jax.Backend}.

(** C8. The [left] flag has no effect: the results for [left=True] and
    [left=False], and for any two values of the flag, are the same. *)
Theorem evaluate_left_irrelevant (self : UnsafeBrownianPath)
  (t0 : RealScalarLike) (t1 : option RealScalarLike) (left left' : bool) :
  evaluate self t0 t1 true = evaluate self t0 t1 false /\
  evaluate self t0 t1 left = evaluate self t0 t1 left'.
Proof. split; reflexivity. Qed.

Context {L : jax.BackendLaws B}.

(** C4. With [t1] omitted, [evaluate(t)] is [evaluate(0, t)]; and it is
    [evaluate(0.0, t)] as well, so [evaluate(0.5)] equals
    [evaluate(0.0, 0.5)]. *)
Theorem evaluate_single_argument (self : UnsafeBrownianPath)
  (t : RealScalarLike) (left : bool) :
  evaluate self t None left = evaluate self (PyInt 0) (Some t) left /\
  evaluate self t None left = evaluate self (PyFloat 0) (Some t) left.
Proof.
  split; [reflexivity |].
  unfold evaluate, nondifferentiable.
  change (force_bitcast_convert_type (PyInt 0))
    with (force_bitcast_convert_type (PyFloat 0)).
  destruct (split_by_tree _ (shape self)) as [e | keys]; [reflexivity |].
  simpl. apply tree_map_ext. intros key sd.
  unfold _evaluate_leaf. rewrite jax.sqrt_sub_int_zero. reflexivity.
Qed.

End Arguments.

(** ** Bit reinterpretation of the endpoints *)

Lemma bit_pattern_range (t : RealScalarLike) :
  0 <= bit_pattern t < 2 ^ 32.
Proof.
  unfold bit_pattern. destruct t; apply Z.mod_pos_bound; reflexivity.
Qed.

(** IEEE equality of two values: the same value, or two zeros. *)
Lemma SFeqb_true (x y : spec_float) :
  SFeqb x y = true ->
  x = y \/ (ieee.is_zero x = true /\ ieee.is_zero y = true).
Proof.
  unfold SFeqb, SFcompare.
  destruct x as [sx | sx | | sx mx ex], y as [sy | sy | | sy my ey];
    try discriminate; try (right; split; reflexivity);
    try (destruct sx, sy; try discriminate; left; reflexivity);
    try (destruct sx; discriminate); try (destruct sy; discriminate).
  intros H. left.
  destruct sx, sy; try discriminate;
    destruct (Z.compare_spec ex ey) as [E | E | E]; try discriminate;
    subst ey;
    change (Pos.compare_cont Eq mx my) with (Pos.compare mx my) in H;
    destruct (Pos.compare_spec mx my); try discriminate;
    subst; reflexivity.
Qed.

(** C7, as the code has it. The integer folded into the key is the
    32-bit pattern of the scalar's 32-bit representation read as a
    two's-complement number, not a numeric conversion: it lies in the
    signed 32-bit range, its own 32-bit word is that pattern, scalars
    with different patterns give different integers and scalars with the
    same pattern the same integer. Floats that compare equal give the
    same integer unless they are zeros; a zero gives 0 or -2^31 by its
    sign. *)
Theorem bitcast_is_reinterpretation (t t' : RealScalarLike) :
  - 2 ^ 31 <= misc.force_bitcast_convert_type t < 2 ^ 31 /\
  misc.force_bitcast_convert_type t mod 2 ^ 32 = bit_pattern t /\
  (bit_pattern t <> bit_pattern t' ->
   misc.force_bitcast_convert_type t <> misc.force_bitcast_convert_type t') /\
  (bit_pattern t = bit_pattern t' ->
   misc.force_bitcast_convert_type t = misc.force_bitcast_convert_type t') /\
  (forall a b,
     SFeqb (ieee.binary64_of_bits a) (ieee.binary64_of_bits b) = true ->
     ieee.is_zero (ieee.binary64_of_bits a) = false ->
     misc.force_bitcast_convert_type (PyFloat a)
     = misc.force_bitcast_convert_type (PyFloat b)) /\
  (forall a,
     ieee.is_zero (ieee.binary64_of_bits a) = true ->
     misc.force_bitcast_convert_type (PyFloat a) = 0 \/
     misc.force_bitcast_convert_type (PyFloat a) = - 2 ^ 31).
Proof.
  split; [| split; [| split; [| split; [| split]]]].
  5: { intros a b E Hz. unfold misc.force_bitcast_convert_type, bit_pattern.
       destruct (SFeqb_true _ _ E) as [-> | [Ha _]]; [reflexivity |].
       congruence. }
  5: { intros a Hz. unfold misc.force_bitcast_convert_type, bit_pattern.
       destruct (ieee.binary64_of_bits a) as [[|] | | |]; try discriminate;
         [right | left]; vm_compute; reflexivity. }
  all: unfold misc.force_bitcast_convert_type;
    pose proof (bit_pattern_range t) as R;
    pose proof (bit_pattern_range t') as R';
    change (2 ^ 32) with 4294967296 in *;
    change (2 ^ 31) with 2147483648 in *;
    destruct (Z.ltb_spec (bit_pattern t) 2147483648) as [Hw | Hw];
    destruct (Z.ltb_spec (bit_pattern t') 2147483648) as [Hw' | Hw'];
    first [ lia
          | apply Z.mod_small; lia
          | symmetry; apply (Z.mod_unique _ _ (-1)); lia ].
Qed.

(** The two zeros compare equal as numbers, but their binary32 patterns
    differ, and so do their integers: an endpoint [-0.0] does not select
    the seed of [+0.0]. *)
Remark signed_zeros_differ :
  f32_eqb (bit_pattern Demo.pos_zero) (bit_pattern Demo.neg_zero) = true /\
  misc.force_bitcast_convert_type Demo.pos_zero = 0 /\
  misc.force_bitcast_convert_type Demo.neg_zero = - 2 ^ 31.
Proof. repeat split; vm_compute; reflexivity. Qed.

(** It is not a numeric cast: 0.5 and 1.0, which truncate to 0 and 1,
    become the integers of their binary32 patterns. *)
Remark bitcast_not_numeric :
  misc.force_bitcast_convert_type Demo.half = 1056964608 /\
  misc.force_bitcast_convert_type Demo.one = 1065353216.
Proof. split; vm_compute; reflexivity. Qed.

(** ** Where the code departs from the stated behaviour *)

Section Departures.

Import misc Path Ref.

(** C3, as stated, fails: a leaf of dtype complex64 is not of a
    floating-point kind, yet the constructor accepts the descriptor. *)
Lemma init_complex_leaf_not_rejected :
  (exists x, In x (tree_leaves Demo.complex_leaf) /\
             issubdtype (sds_dtype x) floating = false) /\
  __init__ (Descriptor Demo.complex_leaf) Demo.seed
  = inr (mkPath Demo.complex_leaf Demo.seed).
Proof.
  split; [| reflexivity].
  exists (mkSDS [3%nat] complex64). split; [left |]; reflexivity.
Qed.

(** C9, as stated, fails: no reading of the exception yields an
    offending leaf. Two descriptors whose only offending leaves differ in
    position, shape and dtype raise the same exception. *)
Lemma init_error_names_no_leaf : ~ @error_identifies_leaf Ref.backend.
Proof.
  intros [locate H].
  pose proof (H Demo.int_first Demo.seed _ eq_refl) as H1.
  pose proof (H Demo.bool_second Demo.seed _ eq_refl) as H2.
  destruct H1 as [H1 | []]. destruct H2 as [H2 | []].
  rewrite <- H1 in H2. discriminate H2.
Qed.

(** C5, as stated, fails: on the query (1e-46, 0.0), where [t1 < t0],
    the difference -1e-46 is taken in as the binary32 number -0.0, whose
    square root is -0.0, and the leaves are zeros, not NaN. *)
Lemma evaluate_reversed_underflow :
  SFltb (ieee.as_float (ieee.value Demo.pos_zero))
    (ieee.as_float (ieee.value DemoMore.tiny)) = true /\
  __init__ (Descriptor Demo.nested) Demo.seed = inr Demo.sampler /\
  exists r,
    evaluate Demo.sampler DemoMore.tiny (Some Demo.pos_zero) true = inr r /\
    tree_leaves r <> [] /\
    Forall (fun x => jax.isnan_all x = false /\
                     Forall (fun y => ieee.is_zero y = true) (r_data x))
      (tree_leaves r).
Proof.
  split; [vm_compute; reflexivity |]. split; [reflexivity |].
  eexists. split; [vm_compute; reflexivity |].
  split; [discriminate |].
  repeat constructor.
Qed.

(** C6, as stated, fails: with 64-bit mode off, a leaf declared in
    float64 is accepted by the constructor and comes back in float32. *)
Lemma evaluate_float64_leaf_truncated :
  jax.enable_x64 = false /\
  tree_leaves DemoMore.wide = [mkSDS [3%nat] float64] /\
  __init__ (Descriptor DemoMore.wide) Demo.seed
  = inr (mkPath DemoMore.wide Demo.seed) /\
  exists x,
    evaluate (mkPath DemoMore.wide Demo.seed) Demo.pos_zero (Some Demo.one)
      true = inr (Node PyTuple [Leaf x]) /\
    jax.arr_shape x = [3%nat] /\
    jax.arr_dtype x = float32 /\
    jax.arr_dtype x <> float64.
Proof.
  split; [reflexivity |]. split; [reflexivity |]. split; [reflexivity |].
  eexists. split; [vm_compute; reflexivity |].
  split; [reflexivity |]. split; [reflexivity | discriminate].
Qed.

(** C7, as stated, fails: +0.0 and -0.0 are equal floating-point values,
    and their integers differ. *)
Lemma bitcast_equal_zeros_differ :
  SFeqb (ieee.as_float (ieee.value Demo.pos_zero))
    (ieee.as_float (ieee.value Demo.neg_zero)) = true /\
  force_bitcast_convert_type Demo.pos_zero
  <> force_bitcast_convert_type Demo.neg_zero.
Proof.
  split; [vm_compute; reflexivity |].
  vm_compute. discriminate.
Qed.

End Departures.

(** ** The theorems at sample inputs, on the reference backend *)

Section Samples.

Import misc Path Ref.

Lemma evaluate_deterministic_sample :
  __init__ (Descriptor Demo.nested) Demo.seed = inr Demo.sampler /\
  exists r,
    evaluate Demo.sampler Demo.pos_zero (Some Demo.one) true = inr r /\
    evaluate Demo.sampler Demo.pos_zero (Some Demo.one) true = inr r.
Proof.
  split; [reflexivity |].
  apply (@evaluate_deterministic Ref.backend ref_laws
           (Descriptor Demo.nested) Demo.seed Demo.sampler Demo.sampler
           Demo.pos_zero (Some Demo.one) true); reflexivity.
Defined.

Lemma evaluate_algorithm_sample :
  __init__ (Descriptor Demo.deep) Demo.seed
  = inr (mkPath Demo.deep Demo.seed) /\
  let seed :=
    jax.fold_in
      (jax.fold_in Demo.seed (force_bitcast_convert_type Demo.half))
      (force_bitcast_convert_type Demo.one) in
  let leaves := tree_leaves Demo.deep in
  let subseeds := jax.split seed (List.length leaves) in
  List.length subseeds = List.length leaves /\
  exists r,
    evaluate (mkPath Demo.deep Demo.seed) Demo.half (Some Demo.one) true
    = inr r /\
    tree_structure r = tree_structure Demo.deep /\
    Forall2
      (fun ks x =>
         exists z,
           jax.normal (fst ks) (sds_shape (snd ks)) (sds_dtype (snd ks))
             = inr z /\
           x = jax.mul z
                 (jax.astype (jax.sqrt (jax.sub Demo.one Demo.half))
                    (sds_dtype (snd ks))))
      (combine subseeds leaves) (tree_leaves r).
Proof.
  split; [reflexivity |].
  apply (@evaluate_algorithm Ref.backend ref_laws
           (Descriptor Demo.deep) Demo.seed (mkPath Demo.deep Demo.seed)
           Demo.half Demo.one true); reflexivity.
Defined.

Lemma evaluate_shape_fidelity_sample :
  __init__ (Descriptor Demo.deep) Demo.seed
  = inr (mkPath Demo.deep Demo.seed) /\
  exists r,
    evaluate (mkPath Demo.deep Demo.seed) Demo.half None false = inr r /\
    tree_structure r = tree_structure Demo.deep /\
    Forall2
      (fun sd x =>
         jax.arr_shape x = sds_shape sd /\
         jax.arr_dtype x
         = canonicalize_dtype jax.enable_x64 (sds_dtype sd) /\
         (jax.enable_x64 = true \/ is_64bit (sds_dtype sd) = false ->
          jax.arr_dtype x = sds_dtype sd))
      (tree_leaves Demo.deep) (tree_leaves r).
Proof.
  split; [reflexivity |].
  apply (@evaluate_shape_fidelity Ref.backend ref_laws
           (Descriptor Demo.deep) Demo.seed (mkPath Demo.deep Demo.seed)
           Demo.half None false); reflexivity.
Defined.

Lemma evaluate_reversed_interval_sample :
  __init__ (Descriptor Demo.nested) Demo.seed = inr Demo.sampler /\
  ieee.negative
    (ieee.to_backend jax.enable_x64 (jax.sub Demo.half Demo.one)) = true /\
  exists r,
    evaluate Demo.sampler Demo.one (Some Demo.half) true = inr r /\
    tree_structure r = tree_structure Demo.nested /\
    Forall2 (fun sd x => jax.arr_shape x = sds_shape sd)
      (tree_leaves Demo.nested) (tree_leaves r) /\
    Forall (fun x => jax.isnan_all x = true) (tree_leaves r).
Proof.
  assert (N : ieee.negative
                (ieee.to_backend jax.enable_x64 (jax.sub Demo.half Demo.one))
              = true) by (vm_compute; reflexivity).
  split; [reflexivity |]. split; [exact N |].
  destruct (@evaluate_reversed_interval Ref.backend ref_laws ref_ieee
              (Descriptor Demo.nested) Demo.seed Demo.sampler
              Demo.one Demo.half true eq_refl)
    as (r & Hr & Hs & Hsh & Hnan & _).
  exists r. split; [exact Hr |]. split; [exact Hs |].
  split; [exact Hsh | exact (Hnan N)].
Defined.

Lemma evaluate_single_argument_sample :
  evaluate Demo.sampler Demo.half None true
  = evaluate Demo.sampler (PyInt 0) (Some Demo.half) true /\
  evaluate Demo.sampler Demo.half None true
  = evaluate Demo.sampler Demo.pos_zero (Some Demo.half) true.
Proof.
  apply (@evaluate_single_argument Ref.backend ref_laws
           Demo.sampler Demo.half true).
Defined.

Lemma init_error_is_fixed_sample :
  __init__ (Descriptor Demo.int_first) Demo.seed
  = inl (ValueError error_message) /\
  ValueError error_message
  = ValueError "UnsafeBrownianPath dtypes all have to be floating-point." /\
  offending Demo.int_first <> [].
Proof.
  split; [reflexivity |].
  apply (@init_error_is_fixed Ref.backend
           (Descriptor Demo.int_first) Demo.seed); reflexivity.
Defined.

Lemma init_accepts_complex_sample :
  (forall x, In x (tree_leaves Demo.complex_leaf) ->
             issubdtype (sds_dtype x) complexfloating = true) /\
  __init__ (Descriptor Demo.complex_leaf) Demo.seed
  = inr (mkPath Demo.complex_leaf Demo.seed) /\
  (forall x, In x (tree_leaves Demo.complex_leaf) ->
             issubdtype (sds_dtype x) floating = false /\
             issubdtype (sds_dtype x) inexact = true).
Proof.
  assert (H : forall x, In x (tree_leaves Demo.complex_leaf) ->
                        issubdtype (sds_dtype x) complexfloating = true).
  { intros x [<- | []]. reflexivity. }
  split; [exact H |].
  apply (@init_accepts_complex Ref.backend Demo.complex_leaf Demo.seed H).
Defined.

End Samples.

(** ** Further properties of the constructor and of [evaluate] *)

Lemma Forall2_combine_nth {K S X} (P : K * S -> X -> Prop) (ks : list K) :
  forall (l : list S) (r : list X) (i : nat) (k : K) (s : S),
    Forall2 P (combine ks l) r ->
    nth_error ks i = Some k ->
    nth_error l i = Some s ->
    exists x, nth_error r i = Some x /\ P (k, s) x.
Proof.
  induction ks as [| k0 ks IH]; intros l r i k s H Hk Hs.
  - destruct i; discriminate.
  - destruct l as [| s0 l]; [destruct i; discriminate |].
    simpl in H. inversion H as [| ? x ? xs Hx Hxs]; subst.
    destruct i as [| i]; simpl in *.
    + injection Hk as <-. injection Hs as <-. eauto.
    + eapply IH; eauto.
Qed.

Lemma no_leaves_unique {A} (r : PyTree A) :
  forall r' : PyTree A,
    tree_leaves r = [] ->
    tree_structure r = tree_structure r' ->
    r = r'.
Proof.
  induction r as [a | nd cs IH] using PyTree_forall_ind;
    intros [a' | nd' cs'] Hl Hs; simpl in *; try discriminate.
  injection Hs as <- Hcs. f_equal.
  revert cs' Hcs Hl.
  induction IH as [| c cs Hc _ IHcs]; intros [| c' cs'] Hcs Hl;
    simpl in *; try discriminate; [reflexivity |].
  injection Hcs as Hc' Hcs'.
  apply app_eq_nil in Hl. destruct Hl as [Hl1 Hl2].
  f_equal; [apply Hc; assumption | apply IHcs; assumption].
Qed.

Lemma existsb_dtype_map (l : list ShapeDtypeStruct) :
  existsb (fun x => negb (issubdtype (sds_dtype x) inexact)) l =
  existsb (fun d => negb (issubdtype d inexact)) (map sds_dtype l).
Proof.
  induction l as [| x l IH]; simpl; [reflexivity |].
  rewrite IH. reflexivity.
Qed.

Section Further.

Import misc Path.

Context `{B : jax.Backend}.

(** X4. Whether construction raises depends on the leaf dtypes alone:
    two arguments whose leaves have the same dtypes, in order, are both
    accepted or both rejected, whatever the keys, the leaf shapes and the
    containers. *)
Theorem init_depends_on_leaf_dtypes (arg arg' : ShapeArg)
  (k k' : jax.PRNGKey) :
  map sds_dtype (tree_leaves (declared arg))
  = map sds_dtype (tree_leaves (declared arg')) ->
  ((exists p, __init__ arg k = inr p) <->
   (exists p', __init__ arg' k' = inr p')) /\
  ((exists e, __init__ arg k = inl e) <->
   (exists e', __init__ arg' k' = inl e')).
Proof.
  intros H. unfold __init__. fold (declared arg). fold (declared arg').
  rewrite (existsb_dtype_map (tree_leaves (declared arg))),
          (existsb_dtype_map (tree_leaves (declared arg'))), H.
  destruct (existsb _ (map sds_dtype (tree_leaves (declared arg')))).
  - split; split; intros [x Hx]; try discriminate; eexists; reflexivity.
  - split; split; intros [x Hx]; try discriminate; eexists; reflexivity.
Qed.

Context {L : jax.BackendLaws B}.

(** X1. A tuple of integers is the single-array descriptor of that shape
    in the default floating dtype: construction never raises, and every
    query returns one array, not a container, of exactly that shape, in
    float32, or in float64 when 64-bit mode is enabled. *)
Theorem tuple_of_ints_single_array (dims : list nat) (k : jax.PRNGKey)
  (t0 : RealScalarLike) (t1 : option RealScalarLike) (left : bool) :
  __init__ (TupleOfInts dims) k
  = __init__ (Descriptor (Leaf (mkSDS dims default_floating_dtype))) k /\
  exists p x,
    __init__ (TupleOfInts dims) k = inr p /\
    evaluate p t0 t1 left = inr (Leaf x) /\
    jax.arr_shape x = dims /\
    jax.arr_dtype x = (if jax.enable_x64 then float64 else float32).
Proof.
  split; [reflexivity |].
  destruct (init_cases (TupleOfInts dims) k) as [[E F] | [_ X]].
  - exists (mkPath (declared (TupleOfInts dims)) k).
    destruct (evaluate_endpoints
                (mkPath (declared (TupleOfInts dims)) k) t0 t1 left)
      as (a & b & Eab).
    destruct (evaluate_some_ok
                (mkPath (declared (TupleOfInts dims)) k) a b left F)
      as (r & Hr & Hs & Hl).
    destruct r as [x | nd cs]; [| discriminate Hs].
    exists x. split; [exact E |]. split; [congruence |].
    simpl in Hl.
    destruct (jax.split _ _) as [| k0 ks]; simpl in Hl; inversion Hl; subst.
    match goal with
    | Hx : leaf_value _ _ _ _ |- _ =>
        apply leaf_value_shape in Hx; [destruct Hx as [Hsh Hdt] |]
    end.
    + split; [exact Hsh |]. rewrite Hdt. simpl.
      unfold default_floating_dtype.
      destruct jax.enable_x64; reflexivity.
    + simpl. unfold default_floating_dtype.
      destruct jax.enable_x64; reflexivity.
  - exfalso. simpl in X. inversion X as [? ? Hx | ? ? Hx]; subst.
    + simpl in Hx. unfold default_floating_dtype in Hx.
      destruct jax.enable_x64; discriminate.
    + inversion Hx.
Qed.

(** X2. A descriptor without leaves (such as [None], [[]] or [{}]) is
    accepted, and then every query, reversed or not, returns the same
    value: the descriptor's containers with no array in them. *)
Theorem evaluate_no_leaves (d : PyTree ShapeDtypeStruct) (k : jax.PRNGKey) :
  tree_leaves d = [] ->
  exists p r,
    __init__ (Descriptor d) k = inr p /\
    tree_structure r = tree_structure d /\
    tree_leaves r = [] /\
    forall t0 t1 left, evaluate p t0 t1 left = inr r.
Proof.
  intros Hd.
  assert (F : Forall (fun x => issubdtype (sds_dtype x) inexact = true)
                (tree_leaves (shape (mkPath d k)))).
  { simpl. rewrite Hd. constructor. }
  destruct (evaluate_some_ok (mkPath d k) (PyInt 0) (PyInt 0) true F)
    as (r & _ & Hs & Hl).
  simpl in Hs, Hl. rewrite Hd in Hl.
  rewrite combine_nil in Hl.
  assert (Hr : [] = tree_leaves r) by (inversion Hl; reflexivity).
  exists (mkPath d k), r.
  split; [| split; [exact Hs | split; [symmetry; exact Hr |]]].
  - destruct (init_cases (Descriptor d) k) as [[E _] | [_ X]]; [exact E |].
    simpl in X. rewrite Hd in X. inversion X.
  - intros t0 t1 left.
    destruct (evaluate_endpoints (mkPath d k) t0 t1 left) as (a & b & Eab).
    destruct (evaluate_some_ok (mkPath d k) a b left F)
      as (r' & Hr' & Hs' & _).
    rewrite Eab, Hr'. f_equal. symmetry.
    apply no_leaves_unique; [symmetry; exact Hr |].
    simpl in Hs'. congruence.
Qed.

Context {I : jax.IEEELaws B}.

(** X3. With [t1] omitted, [evaluate(t)] is taken on the interval from
    0 to [t]: when [t - 0], as jax takes it in, is below zero, the call
    raises nothing and returns the descriptor's structure with every
    leaf NaN. *)
Theorem evaluate_negative_time (arg : ShapeArg) (k : jax.PRNGKey)
  (p : UnsafeBrownianPath) (t : RealScalarLike) (left : bool) :
  __init__ arg k = inr p ->
  ieee.negative (ieee.to_backend jax.enable_x64 (jax.sub t (PyInt 0)))
  = true ->
  exists r,
    evaluate p t None left = inr r /\
    tree_structure r = tree_structure (declared arg) /\
    Forall (fun x => jax.isnan_all x = true) (tree_leaves r).
Proof.
  intros H Hneg. destruct (init_inr _ _ H) as [-> Hv]. simpl in Hv.
  destruct (evaluate_some_ok (mkPath (declared arg) k) (PyInt 0) t left Hv)
    as (r & Hr & Hs & Hl).
  exists r. split; [rewrite evaluate_none; exact Hr |].
  split; [exact Hs |].
  simpl in Hl. rewrite Forall_forall in Hv.
  apply Forall2_right with (l := tree_leaves (declared arg)).
  eapply Forall2_combine_snd; [apply jax.split_length | | exact Hl].
  intros k' sd x Hin Hx. eapply leaf_value_nan; eauto.
Qed.

(** X5. With [t1] omitted, the per-query seed is the base seed with the
    integer 0 folded in and then the bit pattern of [t]; each leaf is the
    normal draw from its sub-seed times [sqrt(t - 0)] in the leaf's
    dtype. *)
Theorem evaluate_single_argument_seed (arg : ShapeArg) (k : jax.PRNGKey)
  (p : UnsafeBrownianPath) (t : RealScalarLike) (left : bool) :
  __init__ arg k = inr p ->
  let seed :=
    jax.fold_in (jax.fold_in k 0) (force_bitcast_convert_type t) in
  let leaves := tree_leaves (declared arg) in
  exists r,
    evaluate p t None left = inr r /\
    Forall2
      (fun ks x =>
         exists z,
           jax.normal (fst ks) (sds_shape (snd ks)) (sds_dtype (snd ks))
             = inr z /\
           x = jax.mul z
                 (jax.astype (jax.sqrt (jax.sub t (PyInt 0)))
                    (sds_dtype (snd ks))))
      (combine (jax.split seed (List.length leaves)) leaves)
      (tree_leaves r).
Proof.
  intros H. destruct (init_inr _ _ H) as [-> Hv]. simpl in Hv. simpl.
  destruct (evaluate_some_ok (mkPath (declared arg) k) (PyInt 0) t left Hv)
    as (r & Hr & _ & Hl).
  exists r. split; [rewrite evaluate_none; exact Hr | exact Hl].
Qed.

(** X6. The value of a leaf depends on the seed, the query, the number of
    leaves and that leaf's own descriptor only: two samplers on the same
    seed whose descriptors have equally many leaves and agree at leaf [i]
    return the same array at leaf [i], whatever their containers and
    their other leaves. *)
Theorem leaf_value_is_local (arg arg' : ShapeArg) (k : jax.PRNGKey)
  (p p' : UnsafeBrownianPath) (t0 : RealScalarLike)
  (t1 : option RealScalarLike) (left : bool)
  (i : nat) (sd : ShapeDtypeStruct) :
  __init__ arg k = inr p ->
  __init__ arg' k = inr p' ->
  num_leaves (declared arg) = num_leaves (declared arg') ->
  nth_error (tree_leaves (declared arg)) i = Some sd ->
  nth_error (tree_leaves (declared arg')) i = Some sd ->
  exists r r' x,
    evaluate p t0 t1 left = inr r /\
    evaluate p' t0 t1 left = inr r' /\
    nth_error (tree_leaves r) i = Some x /\
    nth_error (tree_leaves r') i = Some x.
Proof.
  intros H H' Hn Hi Hi'.
  destruct (init_inr _ _ H) as [-> Hv].
  destruct (init_inr _ _ H') as [-> Hv']. simpl in Hv, Hv'.
  assert (E : exists a b,
    evaluate (mkPath (declared arg) k) t0 t1 left
    = evaluate (mkPath (declared arg) k) a (Some b) left /\
    evaluate (mkPath (declared arg') k) t0 t1 left
    = evaluate (mkPath (declared arg') k) a (Some b) left).
  { destruct t1 as [t1 |].
    - exists t0, t1. split; reflexivity.
    - exists (PyInt 0), t0. split; reflexivity. }
  destruct E as (a & b & E1 & E2).
  destruct (evaluate_some_ok (mkPath (declared arg) k) a b left Hv)
    as (r & Hr & _ & Hl).
  destruct (evaluate_some_ok (mkPath (declared arg') k) a b left Hv')
    as (r' & Hr' & _ & Hl').
  simpl in Hl, Hl'. rewrite <- Hn in Hl'.
  change (query_key (mkPath (declared arg') k) a b)
    with (query_key (mkPath (declared arg) k) a b) in Hl'.
  set (subs := jax.split (query_key (mkPath (declared arg) k) a b)
                 (num_leaves (declared arg))) in *.
  assert (Hk : exists ki, nth_error subs i = Some ki).
  { destruct (nth_error subs i) as [ki |] eqn:Ek; [eauto |].
    apply nth_error_None in Ek. unfold subs in Ek.
    rewrite jax.split_length in Ek.
    assert (i < num_leaves (declared arg))%nat
      by (unfold num_leaves; apply nth_error_Some; congruence).
    lia. }
  destruct Hk as [ki Hk].
  destruct (@Forall2_combine_nth _ _ _ _ _ _ _ _ _ _ Hl Hk Hi)
    as (x & Hx & Px).
  destruct (@Forall2_combine_nth _ _ _ _ _ _ _ _ _ _ Hl' Hk Hi')
    as (x' & Hx' & Px').
  destruct Px as (z & Hz & ->). destruct Px' as (z' & Hz' & ->).
  simpl in Hz, Hz'. assert (z' = z) by congruence. subst z'.
  exists r, r'. eexists.
  split; [congruence |]. split; [congruence |]. split; eassumption.
Qed.

End Further.

(** ** The further properties at sample inputs *)

Section FurtherSamples.

Import misc Path Ref.

Lemma init_depends_on_leaf_dtypes_sample :
  map sds_dtype (tree_leaves (declared (Descriptor Demo.nested)))
  = map sds_dtype (tree_leaves (declared (Descriptor DemoMore.reshaped))) /\
  ((exists p, __init__ (Descriptor Demo.nested) Demo.seed = inr p) <->
   (exists p', __init__ (Descriptor DemoMore.reshaped) 7 = inr p')) /\
  ((exists e, __init__ (Descriptor Demo.nested) Demo.seed = inl e) <->
   (exists e', __init__ (Descriptor DemoMore.reshaped) 7 = inl e')).
Proof.
  split; [reflexivity |].
  apply (@init_depends_on_leaf_dtypes Ref.backend
           (Descriptor Demo.nested) (Descriptor DemoMore.reshaped)
           Demo.seed 7); reflexivity.
Defined.

Lemma tuple_of_ints_single_array_sample :
  __init__ (TupleOfInts [3%nat]) Demo.seed
  = __init__ (Descriptor (Leaf (mkSDS [3%nat] default_floating_dtype)))
      Demo.seed /\
  exists p x,
    __init__ (TupleOfInts [3%nat]) Demo.seed = inr p /\
    evaluate p Demo.pos_zero (Some Demo.one) true = inr (Leaf x) /\
    jax.arr_shape x = [3%nat] /\
    jax.arr_dtype x = (if jax.enable_x64 then float64 else float32).
Proof.
  apply (@tuple_of_ints_single_array Ref.backend ref_laws
           [3%nat] Demo.seed Demo.pos_zero (Some Demo.one) true).
Defined.

Lemma evaluate_no_leaves_sample :
  tree_leaves DemoMore.no_leaves = [] /\
  exists p r,
    __init__ (Descriptor DemoMore.no_leaves) Demo.seed = inr p /\
    tree_structure r = tree_structure DemoMore.no_leaves /\
    tree_leaves r = [] /\
    forall t0 t1 left, evaluate p t0 t1 left = inr r.
Proof.
  split; [reflexivity |].
  apply (@evaluate_no_leaves Ref.backend ref_laws
           DemoMore.no_leaves Demo.seed); reflexivity.
Defined.

Lemma evaluate_negative_time_sample :
  __init__ (Descriptor Demo.nested) Demo.seed = inr Demo.sampler /\
  ieee.negative
    (ieee.to_backend jax.enable_x64 (jax.sub DemoMore.minus_one (PyInt 0)))
  = true /\
  exists r,
    evaluate Demo.sampler DemoMore.minus_one None true = inr r /\
    tree_structure r = tree_structure Demo.nested /\
    Forall (fun x => jax.isnan_all x = true) (tree_leaves r).
Proof.
  split; [reflexivity |]. split; [vm_compute; reflexivity |].
  apply (@evaluate_negative_time Ref.backend ref_laws ref_ieee
           (Descriptor Demo.nested) Demo.seed Demo.sampler
           DemoMore.minus_one true); [reflexivity | vm_compute; reflexivity].
Defined.

Lemma evaluate_single_argument_seed_sample :
  __init__ (Descriptor Demo.nested) Demo.seed = inr Demo.sampler /\
  let seed :=
    jax.fold_in (jax.fold_in Demo.seed 0)
      (force_bitcast_convert_type Demo.half) in
  let leaves := tree_leaves Demo.nested in
  exists r,
    evaluate Demo.sampler Demo.half None true = inr r /\
    Forall2
      (fun ks x =>
         exists z,
           jax.normal (fst ks) (sds_shape (snd ks)) (sds_dtype (snd ks))
             = inr z /\
           x = jax.mul z
                 (jax.astype (jax.sqrt (jax.sub Demo.half (PyInt 0)))
                    (sds_dtype (snd ks))))
      (combine (jax.split seed (List.length leaves)) leaves)
      (tree_leaves r).
Proof.
  split; [reflexivity |].
  apply (@evaluate_single_argument_seed Ref.backend ref_laws
           (Descriptor Demo.nested) Demo.seed Demo.sampler
           Demo.half true); reflexivity.
Defined.

Lemma leaf_value_is_local_sample :
  __init__ (Descriptor Demo.nested) Demo.seed = inr Demo.sampler /\
  __init__ (Descriptor DemoMore.pair) Demo.seed
  = inr (mkPath DemoMore.pair Demo.seed) /\
  num_leaves Demo.nested = num_leaves DemoMore.pair /\
  nth_error (tree_leaves Demo.nested) 0 = Some (mkSDS [2%nat] float32) /\
  nth_error (tree_leaves DemoMore.pair) 0 = Some (mkSDS [2%nat] float32) /\
  exists r r' x,
    evaluate Demo.sampler Demo.half (Some Demo.one) true = inr r /\
    evaluate (mkPath DemoMore.pair Demo.seed) Demo.half (Some Demo.one) true
    = inr r' /\
    nth_error (tree_leaves r) 0 = Some x /\
    nth_error (tree_leaves r') 0 = Some x.
Proof.
  repeat (split; [reflexivity |]).
  apply (@leaf_value_is_local Ref.backend ref_laws
           (Descriptor Demo.nested) (Descriptor DemoMore.pair) Demo.seed
           Demo.sampler (mkPath DemoMore.pair Demo.seed)
           Demo.half (Some Demo.one) true 0%nat (mkSDS [2%nat] float32));
    reflexivity.
Defined.

End FurtherSamples.
